(** * A shallow embedding of the users service (main.py)

    The service is a Flask application with five routes over one SQLite
    table, [users].  The development follows the layout of the source:

    - the Python values a handler sees ([request.get_json()] and what
      [dict.get] returns), with Python's truth test;
    - the [users] table with its schema constraints (INTEGER PRIMARY KEY
      AUTOINCREMENT, TEXT NOT NULL, UNIQUE), and one connection per request
      whose statements act on a working copy until [commit];
    - the handlers, written in a small state-and-exception monad so that
      [db.execute], [db.commit], [try]/[except] and early [return] read as
      they do in the source;
    - the URL rules and the two error handlers;
    - the body of a request as [request.get_json()] finds it, with the HTTP
      exceptions it raises, and paths as texts.

    JSON numbers with a fraction or an exponent are not represented: no
    handler computes with them and their text form in SQLite is a matter of
    floating point.  Every other JSON value is. *)

From Stdlib Require Import ZArith String Ascii List Bool Lia DecimalString.
From Stdlib Require Import Decimal DecimalPos Sorted.
Import ListNotations.

#[local] Set Warnings "-register-all".

Open Scope string_scope.
Open Scope Z_scope.

(** ** Python values *)

(** What [request.get_json()] returns, and what [data.get(key)] returns:
    [None], [bool], [int], [str], [list] or [dict].  A dict is given by its
    items; [dict_get] reads the first item with the key. *)
Inductive pyval : Type :=
| PNone
| PBool (b : bool)
| PInt (z : Z)
| PStr (s : string)
| PList (l : list pyval)
| PDict (d : list (string * pyval)).

(** Python's truth test, [bool(v)], as used by [if not data] and
    [if not name]. *)
Definition truthy (v : pyval) : bool :=
  match v with
  | PNone => false
  | PBool b => b
  | PInt z => negb (z =? 0)
  | PStr s => negb (s =? "")%string
  | PList l => match l with [] => false | _ :: _ => true end
  | PDict d => match d with [] => false | _ :: _ => true end
  end.

(** [d.get(k)] on the items of a dict: the value, or [None]. *)
Fixpoint dict_get (d : list (string * pyval)) (k : string) : pyval :=
  match d with
  | [] => PNone
  | (k', v) :: d' => if (k' =? k)%string then v else dict_get d' k
  end.

(** ** Exceptions and the handler monad *)

Inductive exn : Type :=
| AttributeError      (* [.get] on a value that is not a dict *)
| IntegrityError      (* sqlite3.IntegrityError: UNIQUE or NOT NULL violated *)
| InterfaceError      (* sqlite3: parameter of an unsupported type *)
| OverflowError       (* Python int too large to convert to SQLite INTEGER *)
| OperationalError.   (* sqlite3.OperationalError: SQLITE_FULL *)

Definition exn_eqb (a b : exn) : bool :=
  match a, b with
  | AttributeError, AttributeError
  | IntegrityError, IntegrityError
  | InterfaceError, InterfaceError
  | OverflowError, OverflowError
  | OperationalError, OperationalError => true
  | _, _ => false
  end.

Inductive result (A : Type) : Type :=
| Ok (a : A)
| Raise (e : exn).

Arguments Ok {A} a.
Arguments Raise {A} e.

(** ** The users table *)

(** One row of [users]: every column has been through the TEXT affinity of
    its declaration, so the three text columns hold strings. *)
Record user : Type := mkUser {
  u_id : Z;
  u_name : string;
  u_email : string;
  u_created_at : string
}.

(** The table and the [sqlite_sequence] entry AUTOINCREMENT keeps for it
    (the largest rowid ever handed out). *)
Record table : Type := mkTable {
  rows : list user;
  seq : Z
}.

(** A connection: the database file as last committed, and the view of the
    connection, which holds the effects of statements not yet committed. *)
Record conn : Type := mkConn {
  committed : table;
  working : table
}.

(** [get_db]: the connection of the request, opened on the stored table.
    [close_db]: the teardown closes it; what was not committed is dropped
    and the stored table is the committed one. *)
Definition get_db (t : table) : conn := mkConn t t.
Definition close_db (c : conn) : table := committed c.

(** [init_db]: CREATE TABLE IF NOT EXISTS, on a database file that has the
    table or not. *)
Definition init_db (db : option table) : table :=
  match db with
  | Some t => t
  | None => mkTable [] 0
  end.

(** A handler step: it may change the connection and may raise. *)
Definition M (A : Type) : Type := conn -> result A * conn.

Definition ret {A} (a : A) : M A := fun c => (Ok a, c).
Definition raise {A} (e : exn) : M A := fun c => (Raise e, c).
Definition bind {A B} (m : M A) (k : A -> M B) : M B :=
  fun c =>
    match m c with
    | (Ok a, c') => k a c'
    | (Raise e, c') => (Raise e, c')
    end.
Definition lift {A} (r : result A) : M A := fun c => (r, c).

(** [try: body  except e: handler]: the handler runs in the connection as
    the raise left it; other exceptions pass through. *)
Definition try_except {A} (body : M A) (e : exn) (handler : M A) : M A :=
  fun c =>
    match body c with
    | (Ok a, c') => (Ok a, c')
    | (Raise e', c') => if exn_eqb e' e then handler c' else (Raise e', c')
    end.

Declare Scope handler_scope.
Delimit Scope handler_scope with handler.
Notation "x <- m ;; k" := (bind m (fun x => k))
  (at level 61, m at next level, right associativity) : handler_scope.
Notation "m ;;; k" := (bind m (fun _ => k))
  (at level 61, right associativity) : handler_scope.
Open Scope handler_scope.

(** ** SQLite values, parameter binding and column affinity *)

Inductive sqlval : Type :=
| SNull
| SInt (z : Z)
| SText (s : string).

Definition MAX_ROWID : Z := 9223372036854775807.
Definition MIN_INT64 : Z := -9223372036854775808.

(** How the [sqlite3] module binds one Python value to a [?]: [None], [int]
    (and [bool], a subclass of it) and [str] are supported, an [int] outside
    64 bits overflows, and a [list] or a [dict] is refused. *)
Definition bind_param (v : pyval) : result sqlval :=
  match v with
  | PNone => Ok SNull
  | PBool b => Ok (SInt (if b then 1 else 0))
  | PInt z =>
      if (MIN_INT64 <=? z) && (z <=? MAX_ROWID) then Ok (SInt z)
      else Raise OverflowError
  | PStr s => Ok (SText s)
  | PList _ => Raise InterfaceError
  | PDict _ => Raise InterfaceError
  end.

(** The decimal text of an integer, as SQLite writes it. *)
Definition int_text (z : Z) : string := NilZero.string_of_int (Z.to_int z).

(** TEXT affinity: a number stored in a TEXT column is converted to its
    text; NULL stays NULL ([None] here). *)
Definition text_affinity (v : sqlval) : option string :=
  match v with
  | SNull => None
  | SInt z => Some (int_text z)
  | SText s => Some s
  end.

(** ** The statements the handlers execute *)

Definition get_working : M table := fun c => (Ok (working c), c).
Definition set_working (t : table) : M unit :=
  fun c => (Ok tt, mkConn (committed c) t).

(** [db.commit()] *)
Definition commit : M unit :=
  fun c => (Ok tt, mkConn (working c) (working c)).

(** [SELECT * FROM users], [.fetchall()] *)
Definition select_all : M (list user) :=
  t <- get_working ;; ret (rows t).

(** The first row with the id, if any. *)
Definition lookup (i : Z) (t : table) : option user :=
  find (fun r => u_id r =? i) (rows t).

(** [SELECT * FROM users WHERE id = ?], [.fetchone()] *)
Definition select_by_id (user_id : Z) : M (option user) :=
  p <- lift (bind_param (PInt user_id)) ;;
  t <- get_working ;;
  ret (match p with
       | SInt i => lookup i t
       | _ => None
       end).

(** The largest rowid among the rows, when there is a row. *)
Fixpoint max_id (l : list user) : option Z :=
  match l with
  | [] => None
  | r :: l' =>
      Some (match max_id l' with
            | None => u_id r
            | Some m => Z.max (u_id r) m
            end)
  end.

(** The largest rowid AUTOINCREMENT has to stay above: the one recorded in
    [sqlite_sequence] or the largest in the table (0 for an empty table, so
    that the first rowid is 1). *)
Definition last_rowid (t : table) : Z :=
  Z.max (seq t) (match max_id (rows t) with None => 0 | Some m => m end).

Definition email_taken (e : string) (l : list user) : bool :=
  existsb (fun r => (u_email r =? e)%string) l.

(** [INSERT INTO users (name, email, created_at) VALUES (?, ?, ?)].
    The parameters are bound first; then AUTOINCREMENT picks the rowid after
    the largest ever used (SQLITE_FULL when that was the last one), NOT NULL
    and UNIQUE are checked, and the row and the sequence are written.  A
    statement that fails changes nothing. *)
Definition insert_user (name email created_at : pyval) : M unit :=
  pn <- lift (bind_param name) ;;
  pe <- lift (bind_param email) ;;
  pc <- lift (bind_param created_at) ;;
  t <- get_working ;;
  if MAX_ROWID <=? last_rowid t then raise OperationalError
  else
    match text_affinity pn, text_affinity pe, text_affinity pc with
    | Some n, Some e, Some ts =>
        if email_taken e (rows t) then raise IntegrityError
        else set_working (mkTable (rows t ++ [mkUser (last_rowid t + 1) n e ts])
                                  (last_rowid t + 1))
    | _, _, _ => raise IntegrityError
    end.

Definition set_fields (i : Z) (n e : string) (r : user) : user :=
  if u_id r =? i then mkUser (u_id r) n e (u_created_at r) else r.

(** [UPDATE users SET name = ?, email = ? WHERE id = ?].  When a row has
    the id, NOT NULL is checked on the new values and UNIQUE on the new
    email against every row with another id. *)
Definition update_fields (new_name new_email : pyval) (user_id : Z) : M unit :=
  pn <- lift (bind_param new_name) ;;
  pe <- lift (bind_param new_email) ;;
  pi <- lift (bind_param (PInt user_id)) ;;
  t <- get_working ;;
  match pi with
  | SInt i =>
      if existsb (fun r => u_id r =? i) (rows t) then
        match text_affinity pn, text_affinity pe with
        | Some n, Some e =>
            if email_taken e (filter (fun r => negb (u_id r =? i)) (rows t))
            then raise IntegrityError
            else set_working (mkTable (map (set_fields i n e) (rows t)) (seq t))
        | _, _ => raise IntegrityError
        end
      else ret tt
  | _ => ret tt
  end.

(** [DELETE FROM users WHERE id = ?]; the result is [cursor.rowcount]. *)
Definition delete_by_id (user_id : Z) : M Z :=
  p <- lift (bind_param (PInt user_id)) ;;
  t <- get_working ;;
  match p with
  | SInt i =>
      let gone := filter (fun r => u_id r =? i) (rows t) in
      set_working (mkTable (filter (fun r => negb (u_id r =? i)) (rows t))
                           (seq t)) ;;;
      ret (Z.of_nat (length gone))
  | _ => ret 0
  end.

(** ** Responses *)

Record response : Type := mkResponse {
  status : Z;
  body : pyval
}.

(** [jsonify(v)]: a JSON response, status 200 unless the handler returns it
    paired with another status. *)
Definition jsonify (v : pyval) : response := mkResponse 200 v.
Definition with_status (r : response) (s : Z) : response :=
  mkResponse s (body r).

Definition user_to_dict (row : user) : pyval :=
  PDict [("id", PInt (u_id row));
         ("name", PStr (u_name row));
         ("email", PStr (u_email row));
         ("created_at", PStr (u_created_at row))].

(** [error_response(message, status=400)]; the default is written out where
    the source leaves it implicit. *)
Definition error_response (message : string) (status : Z) : response :=
  with_status (jsonify (PDict [("error", PStr message)])) status.

(** ** Routes *)

(** [data.get(key)]: on anything but a dict the attribute is missing. *)
Definition py_get (data : pyval) (key : string) : M pyval :=
  match data with
  | PDict d => ret (dict_get d key)
  | _ => raise AttributeError
  end.

Definition home : M response :=
  ret (jsonify (PDict [("message", PStr "Flask API is running");
                       ("endpoints", PList [PStr "GET /users";
                                            PStr "POST /users";
                                            PStr "GET /users/<id>";
                                            PStr "PUT /users/<id>";
                                            PStr "DELETE /users/<id>"])])).

Definition get_users : M response :=
  users <- select_all ;;
  ret (jsonify (PList (map user_to_dict users))).

(** [now] is [datetime.utcnow().isoformat()], read when the row is written;
    [data] is what [request.get_json()] returned.  The [return] that follows
    the [try] is reached exactly when its body ends without raising, and is
    written here as the end of the body. *)
Definition create_user (now : string) (data : pyval) : M response :=
  if negb (truthy data) then ret (error_response "JSON body required" 400)
  else
    name <- py_get data "name" ;;
    email <- py_get data "email" ;;
    if negb (truthy name) || negb (truthy email)
    then ret (error_response "Name and email are required" 400)
    else
      try_except
        (insert_user name email (PStr now) ;;;
         commit ;;;
         ret (with_status (jsonify (PDict [("message", PStr "User created")]))
                          201))
        IntegrityError
        (ret (error_response "Email already exists" 409)).

Definition get_user (user_id : Z) : M response :=
  user <- select_by_id user_id ;;
  match user with
  | None => ret (error_response "User not found" 404)
  | Some user => ret (jsonify (user_to_dict user))
  end.

Definition update_user (user_id : Z) (data : pyval) : M response :=
  if negb (truthy data) then ret (error_response "JSON body required" 400)
  else
    name <- py_get data "name" ;;
    email <- py_get data "email" ;;
    if negb (truthy name) && negb (truthy email)
    then ret (error_response "Nothing to update" 400)
    else
      user <- select_by_id user_id ;;
      match user with
      | None => ret (error_response "User not found" 404)
      | Some user =>
          let new_name := if truthy name then name else PStr (u_name user) in
          let new_email :=
            if truthy email then email else PStr (u_email user) in
          try_except
            (update_fields new_name new_email user_id ;;;
             commit ;;;
             ret (jsonify (PDict [("message", PStr "User updated")])))
            IntegrityError
            (ret (error_response "Email already exists" 409))
      end.

Definition delete_user (user_id : Z) : M response :=
  rowcount <- delete_by_id user_id ;;
  commit ;;;
  if rowcount =? 0 then ret (error_response "User not found" 404)
  else ret (jsonify (PDict [("message", PStr "User deleted")])).

(** ** Error handlers *)

Definition not_found : response := error_response "Endpoint not found" 404.
Definition server_error : response :=
  error_response "Internal server error" 500.

(** ** One request *)

(** A view function run in the application context of one request:
    [get_db] opens the connection, an exception no handler caught goes to
    the 500 handler (the debugger being off), and [close_db] closes the
    connection whatever happened, so only what was committed stays. *)
Definition serve (view : M response) (t : table) : response * table :=
  match view (get_db t) with
  | (Ok r, c) => (r, close_db c)
  | (Raise _, c) => (server_error, close_db c)
  end.

(** ** URL rules *)

(** The methods the rules name.  HEAD and OPTIONS, which the framework
    answers by itself, are left out. *)
Inductive http_method : Type := GET | POST | PUT | DELETE.

(** The [int] converter of a URL rule: one or more decimal digits, read as
    a number.  No sign is accepted.  The digits recognised here are the
    ASCII ones, which are all the digits there are in ASCII text; the
    digits of other scripts, which the framework's converter reads too,
    are not told from other characters, and what is stated of a segment
    that is refused is stated of segments with an ASCII character that is
    no digit. *)
Definition is_digit (c : ascii) : bool :=
  ((48 <=? nat_of_ascii c) && (nat_of_ascii c <=? 57))%nat.

Fixpoint all_digits (s : string) : bool :=
  match s with
  | EmptyString => true
  | String c s' => is_digit c && all_digits s'
  end.

Fixpoint digits_value (acc : Z) (s : string) : Z :=
  match s with
  | EmptyString => acc
  | String c s' => digits_value (10 * acc + (Z.of_nat (nat_of_ascii c) - 48)) s'
  end.

Definition int_converter (s : string) : option Z :=
  match s with
  | EmptyString => None
  | String _ _ => if all_digits s then Some (digits_value 0 s) else None
  end.

Inductive endpoint : Type :=
| Home
| GetUsers
| CreateUser
| GetUser (user_id : Z)
| UpdateUser (user_id : Z)
| DeleteUser (user_id : Z).

Inductive routed : Type :=
| Endpoint (e : endpoint)
| NotFound              (* no rule matches the path *)
| MethodNotAllowed.     (* a rule matches the path, none with the method *)

(** The rules of the five [@app.route] decorators.  A path is given by the
    segments that follow each of its slashes: [/] is [[""]], [/users] is
    [["users"]], [/users/7] is [["users"; "7"]].  No rule ends in a slash,
    so [/users/], which is [["users"; ""]], matches none.  A path with an
    empty segment before its last one ([/users//7]), which the framework
    redirects to the path without it, is not a path of this model. *)
Definition route (m : http_method) (path : list string) : routed :=
  match path with
  | [s] =>
      if (s =? "")%string then
        match m with GET => Endpoint Home | _ => MethodNotAllowed end
      else if (s =? "users")%string then
        match m with
        | GET => Endpoint GetUsers
        | POST => Endpoint CreateUser
        | _ => MethodNotAllowed
        end
      else NotFound
  | [s; i] =>
      if (s =? "users")%string then
        match int_converter i with
        | Some user_id =>
            match m with
            | GET => Endpoint (GetUser user_id)
            | PUT => Endpoint (UpdateUser user_id)
            | DELETE => Endpoint (DeleteUser user_id)
            | POST => MethodNotAllowed
            end
        | None => NotFound
        end
      else NotFound
  | _ => NotFound
  end.

Record request : Type := mkRequest {
  req_method : http_method;
  req_path : list string;
  req_json : pyval          (* what [request.get_json()] returns *)
}.

(** What the client gets: a response built by this program, or the page
    the framework itself sends for a method no rule of the path allows. *)
Inductive reply : Type :=
| Reply (r : response)
| MethodNotAllowedPage.

Definition view_of (now : string) (data : pyval) (e : endpoint) : M response :=
  match e with
  | Home => home
  | GetUsers => get_users
  | CreateUser => create_user now data
  | GetUser user_id => get_user user_id
  | UpdateUser user_id => update_user user_id data
  | DeleteUser user_id => delete_user user_id
  end.

Definition dispatch (now : string) (rq : request) (t : table) : reply * table :=
  match route (req_method rq) (req_path rq) with
  | Endpoint e =>
      let (r, t') := serve (view_of now (req_json rq) e) t in (Reply r, t')
  | NotFound => (Reply not_found, t)
  | MethodNotAllowed => (MethodNotAllowedPage, t)
  end.

(** ** Well-formed tables *)

(** What the schema of [init_db] guarantees of every stored table: [id] is
    a primary key (a 64-bit rowid) and [email] is UNIQUE. *)
Definition db_ok (t : table) : Prop :=
  NoDup (map u_id (rows t)) /\
  NoDup (map u_email (rows t)) /\
  Forall (fun r => MIN_INT64 <= u_id r <= MAX_ROWID) (rows t).

(** AUTOINCREMENT can still hand out a rowid. *)
Definition rowid_left (t : table) : Prop :=
  last_rowid t < MAX_ROWID.

(** The text a TEXT column ends up holding for a bound Python value, when
    there is one. *)
Definition sql_text (v : pyval) : option string :=
  match bind_param v with
  | Ok p => text_affinity p
  | Raise _ => None
  end.

(** Some row of the table has the id. *)
Definition has_id (user_id : Z) (t : table) : bool :=
  existsb (fun r => u_id r =? user_id) (rows t).

Definition emails_unique (t : table) : Prop :=
  NoDup (map u_email (rows t)).

(** A checker for [db_ok], for concrete tables. *)
Fixpoint distinct {A} (eqb : A -> A -> bool) (l : list A) : bool :=
  match l with
  | [] => true
  | x :: l' => negb (existsb (eqb x) l') && distinct eqb l'
  end.

Definition db_okb (t : table) : bool :=
  distinct Z.eqb (map u_id (rows t)) &&
  distinct String.eqb (map u_email (rows t)) &&
  forallb (fun r => (MIN_INT64 <=? u_id r) && (u_id r <=? MAX_ROWID)) (rows t).

Definition count_email (e : string) (t : table) : nat :=
  length (filter (fun r => (u_email r =? e)%string) (rows t)).

(** Both tables of a connection satisfy the schema, and a step keeps it
    so. *)
Definition conn_ok (c : conn) : Prop :=
  db_ok (committed c) /\ db_ok (working c).

Definition keeps {A} (m : M A) : Prop :=
  forall c, conn_ok c -> conn_ok (snd (m c)).

(** The three ways a JSON object can carry no value for a field, and the
    object made of one of them and the remaining items. *)
Inductive falsy_form : Type := Absent | Null | EmptyStr.

Definition with_field (k : string) (f : falsy_form)
    (rest : list (string * pyval)) : list (string * pyval) :=
  match f with
  | Absent => rest
  | Null => (k, PNone) :: rest
  | EmptyStr => (k, PStr "") :: rest
  end.

(** The answers of a POST and of a PUT that went through, and a table
    less the rows with an id. *)
Definition created : response :=
  with_status (jsonify (PDict [("message", PStr "User created")])) 201.

Definition updated : response :=
  jsonify (PDict [("message", PStr "User updated")]).

Definition without (user_id : Z) (t : table) : table :=
  mkTable (filter (fun r => negb (u_id r =? user_id)) (rows t)) (seq t).

(** Sample tables used by the examples. *)
Definition empty_table : table := mkTable [] 0.
Definition ann : user := mkUser 1 "Ann" "ann@x.com" "2024-01-01T00:00:00".
Definition bob : user := mkUser 2 "Bob" "bob@x.com" "2024-01-02T00:00:00".
Definition two_users : table := mkTable [ann; bob] 2.

(** A sequence of requests through [dispatch], all at one instant: the
    replies in order, and the table left at the end. *)
Definition scenario_time : string := "2024-03-01T09:30:00".

Definition run (rqs : list request) (t : table) : list reply * table :=
  fold_left
    (fun acc rq =>
       let (r, t') := dispatch scenario_time rq (snd acc) in
       ((fst acc ++ [r])%list, t'))
    rqs ([], t).

(** Unfolding a view down to the statements and the monad. *)
Ltac unfold_view :=
  unfold serve, create_user, update_user, delete_user, get_user, py_get,
    insert_user, update_fields, delete_by_id, select_by_id, try_except,
    bind, ret, raise, lift, get_working, set_working, commit, get_db, close_db.
(** ** Sequences of requests *)

(** The table left by a sequence of requests, each with the time it is
    served at. *)
Definition serve_all (rqs : list (string * request)) (t : table) : table :=
  fold_left (fun t' p => snd (dispatch (fst p) (snd p) t')) rqs t.

Definition reply_status (r : reply) : Z :=
  match r with
  | Reply r' => status r'
  | MethodNotAllowedPage => 405
  end.

(** What one request can do to the stored table: nothing, or what one
    INSERT, one UPDATE or one DELETE that went through does. *)
Inductive step (t : table) : table -> Prop :=
| step_none : step t t
| step_insert (n e ts : string) :
    n <> "" -> e <> "" ->
    email_taken e (rows t) = false ->
    rowid_left t ->
    step t (mkTable (rows t ++ [mkUser (last_rowid t + 1) n e ts])
                    (last_rowid t + 1))
| step_update (i : Z) (u : user) (n e : string) :
    lookup i t = Some u ->
    n = u_name u \/ n <> "" ->
    e = u_email u \/ e <> "" ->
    email_taken e (filter (fun r => negb (u_id r =? i)) (rows t)) = false ->
    step t (mkTable (map (set_fields i n e) (rows t)) (seq t))
| step_delete (i : Z) :
    step t (without i t).

(** Every rowid in the table has been handed out by AUTOINCREMENT: it is
    positive and not above the recorded sequence. *)
Definition ids_below_seq (t : table) : Prop :=
  Forall (fun r => 1 <= u_id r <= seq t) (rows t).

(** The rows are in the order of their rowids, which is the order a SELECT
    with no ORDER BY reads a rowid table in. *)
Definition in_rowid_order (t : table) : Prop :=
  StronglySorted Z.lt (map u_id (rows t)).

Definition fields_nonempty (t : table) : Prop :=
  Forall (fun r => u_name r <> "" /\ u_email r <> "") (rows t).

(** The statuses each view can answer with, 500 being the answer to an
    exception the view does not handle. *)
Definition statuses_of (e : endpoint) : list Z :=
  match e with
  | Home => [200]
  | GetUsers => [200]
  | CreateUser => [201; 400; 409; 500]
  | GetUser _ => [200; 404; 500]
  | UpdateUser _ => [200; 400; 404; 409; 500]
  | DeleteUser _ => [200; 404; 500]
  end.

Definition status_among (s : Z) (l : list Z) : bool := existsb (Z.eqb s) l.

(** A sequence of requests used by the examples. *)
Definition sample_requests : list (string * request) :=
  [("2024-03-01T09:30:00",
    mkRequest POST ["users"]
      (PDict [("name", PStr "Ann"); ("email", PStr "ann@x.com")]));
   ("2024-03-01T09:31:00",
    mkRequest POST ["users"]
      (PDict [("name", PStr "Bob"); ("email", PStr "ann@x.com")]));
   ("2024-03-01T09:32:00",
    mkRequest PUT ["users"; "1"] (PDict [("email", PStr "ann2@x.com")]));
   ("2024-03-01T09:33:00", mkRequest DELETE ["users"; "1"] PNone);
   ("2024-03-01T09:34:00",
    mkRequest POST ["users"]
      (PDict [("name", PStr "Cy"); ("email", PStr "ann@x.com")]))].

(** ** The body of a request *)

(** What a view finds when it calls [request.get_json()]: a request whose
    content type is not JSON (a request with no body is one), a request
    whose content type is JSON and whose text does not parse (an empty
    text does not), or a request whose text parses to a value. *)
Inductive entity : Type :=
| NotJson
| BadJson
| Json (v : pyval).

(** [request.get_json()] with no argument: the parsed value, or the status
    of the HTTP exception it raises, 415 (Unsupported Media Type) on a
    content type that is not JSON and 400 (Bad Request) on a text that
    does not parse. *)
Definition get_json (b : entity) : pyval + Z :=
  match b with
  | NotJson => inr 415
  | BadJson => inr 400
  | Json v => inl v
  end.

(** What the client gets: a response built by this program, or the page
    the framework sends for an HTTP exception no handler of the program is
    registered for (400, 405, 415). *)
Inductive answer : Type :=
| Says (r : response)
| FrameworkPage (status : Z).

Definition answer_status (a : answer) : Z :=
  match a with
  | Says r => status r
  | FrameworkPage s => s
  end.

(** A view run on a request.  [create_user] and [update_user] start with
    [data = request.get_json()], before the connection is opened: when it
    raises, the request ends there and the table is not touched.  The
    other views do not read the body. *)
Definition answer_of (now : string) (b : entity) (e : endpoint) (t : table)
    : answer * table :=
  match e with
  | CreateUser | UpdateUser _ =>
      match get_json b with
      | inl data =>
          let (r, t') := serve (view_of now data e) t in (Says r, t')
      | inr s => (FrameworkPage s, t)
      end
  | Home | GetUsers | GetUser _ | DeleteUser _ =>
      let (r, t') := serve (view_of now PNone e) t in (Says r, t')
  end.

Definition respond (now : string) (m : http_method) (path : list string)
    (b : entity) (t : table) : answer * table :=
  match route m path with
  | Endpoint e => answer_of now b e t
  | NotFound => (Says not_found, t)
  | MethodNotAllowed => (FrameworkPage 405, t)
  end.

(** The statuses each view can end in, for every request body. *)
Definition statuses_with_body (e : endpoint) : list Z :=
  match e with
  | Home => [200]
  | GetUsers => [200]
  | CreateUser => [201; 400; 409; 415; 500]
  | GetUser _ => [200; 404; 500]
  | UpdateUser _ => [200; 400; 404; 409; 415; 500]
  | DeleteUser _ => [200; 404; 500]
  end.

(** ** Paths as texts *)




(** A table in which AUTOINCREMENT has handed out its last rowid. *)
Definition exhausted_table : table := mkTable [ann] MAX_ROWID.

(** * Properties *)

(** ** Lists and rows *)

Lemma distinct_NoDup {A} (eqb : A -> A -> bool) (l : list A) :
  (forall x y, eqb x y = true <-> x = y) ->
  distinct eqb l = true -> NoDup l.
Proof.
  intros Heq. induction l as [|x l IH]; simpl; intros H.
  - constructor.
  - apply andb_true_iff in H. destruct H as [Hx Hl].
    constructor; [|now apply IH].
    intros Hin. apply negb_true_iff in Hx.
    assert (existsb (eqb x) l = true) as Hex.
    { apply existsb_exists. exists x. split; [exact Hin | now apply Heq]. }
    congruence.
Qed.

Lemma db_okb_sound (t : table) : db_okb t = true -> db_ok t.
Proof.
  unfold db_okb, db_ok. intros H.
  apply andb_true_iff in H. destruct H as [H Hr].
  apply andb_true_iff in H. destruct H as [Hi He].
  repeat split.
  - apply (distinct_NoDup Z.eqb); [apply Z.eqb_eq | exact Hi].
  - apply (distinct_NoDup String.eqb); [apply String.eqb_eq | exact He].
  - apply Forall_forall. intros r Hin.
    rewrite forallb_forall in Hr. specialize (Hr r Hin).
    apply andb_true_iff in Hr. lia.
Qed.

Lemma has_id_false_find (user_id : Z) (t : table) :
  has_id user_id t = false ->
  lookup user_id t = None.
Proof.
  unfold has_id, lookup. induction (rows t) as [|r l IH]; simpl; [reflexivity|].
  destruct (u_id r =? user_id); simpl; [discriminate | exact IH].
Qed.

Lemma has_id_true_find (user_id : Z) (t : table) :
  has_id user_id t = true ->
  exists u, lookup user_id t = Some u /\
            In u (rows t) /\ u_id u = user_id.
Proof.
  unfold has_id, lookup. induction (rows t) as [|r l IH]; simpl; [discriminate|].
  destruct (u_id r =? user_id) eqn:E; simpl.
  - intros _. exists r. apply Z.eqb_eq in E. auto.
  - intros H. destruct (IH H) as [u [Hf [Hin Hid]]]. exists u. auto.
Qed.

Lemma find_some_has_id (user_id : Z) (t : table) (u : user) :
  lookup user_id t = Some u ->
  has_id user_id t = true /\ In u (rows t) /\ u_id u = user_id.
Proof.
  unfold lookup. intros H. apply find_some in H. destruct H as [Hin Hid].
  apply Z.eqb_eq in Hid. repeat split; auto.
  unfold has_id. apply existsb_exists. exists u. split; [auto | now apply Z.eqb_eq].
Qed.

Lemma bind_param_int (z : Z) :
  MIN_INT64 <= z <= MAX_ROWID -> bind_param (PInt z) = Ok (SInt z).
Proof.
  intros [Hlo Hhi]. simpl.
  apply Z.leb_le in Hlo. apply Z.leb_le in Hhi. now rewrite Hlo, Hhi.
Qed.

Lemma bind_param_int_cases (z : Z) :
  bind_param (PInt z) = Ok (SInt z) \/ bind_param (PInt z) = Raise OverflowError.
Proof.
  simpl. destruct ((MIN_INT64 <=? z) && (z <=? MAX_ROWID)); auto.
Qed.

Lemma db_ok_id_range (t : table) (user_id : Z) :
  db_ok t -> has_id user_id t = true -> MIN_INT64 <= user_id <= MAX_ROWID.
Proof.
  intros [_ [_ Hr]] H. apply has_id_true_find in H.
  destruct H as [u [_ [Hin Hid]]]. rewrite Forall_forall in Hr.
  specialize (Hr u Hin). now rewrite Hid in Hr.
Qed.

Lemma email_taken_In (e : string) (l : list user) :
  email_taken e l = true <-> In e (map u_email l).
Proof.
  unfold email_taken. rewrite existsb_exists, in_map_iff. split.
  - intros [r [Hin He]]. apply String.eqb_eq in He. eauto.
  - intros [r [He Hin]]. exists r. split; [auto | now apply String.eqb_eq].
Qed.

Lemma email_free_not_In (e : string) (l : list user) :
  email_taken e l = false -> ~ In e (map u_email l).
Proof.
  intros H Hin. apply email_taken_In in Hin. congruence.
Qed.

Lemma max_id_upper (l : list user) (r : user) :
  In r l -> exists m, max_id l = Some m /\ u_id r <= m.
Proof.
  induction l as [|x l IH]; simpl; [tauto|].
  intros [-> | Hin].
  - destruct (max_id l); eexists; split; try reflexivity; lia.
  - destruct (IH Hin) as [m [-> Hm]]. eexists. split; [reflexivity | lia].
Qed.

Lemma last_rowid_upper (t : table) (r : user) :
  In r (rows t) -> u_id r <= last_rowid t.
Proof.
  intros Hin. unfold last_rowid.
  destruct (max_id_upper _ _ Hin) as [m [-> Hm]]. lia.
Qed.

Lemma last_rowid_nonneg (t : table) :
  Forall (fun r => MIN_INT64 <= u_id r <= MAX_ROWID) (rows t) ->
  MIN_INT64 <= last_rowid t + 1.
Proof.
  intros Hr. unfold last_rowid.
  destruct (rows t) as [|r l] eqn:E; simpl.
  - unfold MIN_INT64. lia.
  - inversion Hr as [|? ? Hx _]; subst.
    destruct (max_id l); lia.
Qed.

(** Dropping rows keeps a column free of duplicates. *)
Lemma filter_keeps_distinct {B} (column : user -> B) (keep : user -> bool)
    (l : list user) :
  NoDup (map column l) -> NoDup (map column (filter keep l)).
Proof.
  induction l as [|r l IH]; simpl; intros H; [constructor|].
  inversion H as [|? ? Hr Hl]; subst.
  destruct (keep r); simpl; [constructor|]; auto.
  intros Hin. apply Hr. apply in_map_iff in Hin.
  destruct Hin as [y [Hy Hin]]. apply filter_In in Hin.
  apply in_map_iff. exists y. tauto.
Qed.

Lemma filter_none {A} (p : A -> bool) (l : list A) :
  (forall x, In x l -> p x = false) -> filter p l = [].
Proof.
  induction l as [|x l IH]; simpl; intros H; [reflexivity|].
  rewrite (H x) by now left. apply IH. intros y Hy. apply H. now right.
Qed.

Lemma count_email_unique (e : string) (t : table) :
  emails_unique t -> email_taken e (rows t) = true -> count_email e t = 1%nat.
Proof.
  unfold emails_unique, count_email, email_taken.
  induction (rows t) as [|r l IH]; simpl; [discriminate|].
  intros Hnd H. inversion Hnd as [|? ? Hr Hl]; subst.
  destruct (u_email r =? e)%string eqn:E; simpl in *.
  - apply String.eqb_eq in E. subst e. f_equal.
    rewrite filter_none; [reflexivity|].
    intros x Hx. apply String.eqb_neq. intros Heq.
    apply Hr. rewrite <- Heq. now apply in_map.
  - now apply IH.
Qed.

(** ** The statements keep the schema *)

Lemma set_fields_id (i : Z) (n e : string) (r : user) :
  u_id (set_fields i n e r) = u_id r.
Proof. unfold set_fields. now destruct (u_id r =? i). Qed.

Lemma set_fields_created_at (i : Z) (n e : string) (r : user) :
  u_created_at (set_fields i n e r) = u_created_at r.
Proof. unfold set_fields. now destruct (u_id r =? i). Qed.

Lemma set_fields_other (i : Z) (n e : string) (r : user) :
  u_id r <> i -> set_fields i n e r = r.
Proof.
  intros H. unfold set_fields. apply Z.eqb_neq in H. now rewrite H.
Qed.

Lemma map_set_fields_absent (i : Z) (n e : string) (l : list user) :
  ~ In i (map u_id l) -> map (set_fields i n e) l = l.
Proof.
  induction l as [|r l IH]; simpl; intros H; [reflexivity|].
  rewrite IH by tauto. rewrite set_fields_other; [reflexivity|].
  intros Heq. apply H. now left.
Qed.

Lemma set_fields_emails (i : Z) (n e : string) (l : list user) (x : string) :
  In x (map u_email (map (set_fields i n e) l)) ->
  x = e \/ In x (map u_email l).
Proof.
  induction l as [|r l IH]; simpl; [tauto|].
  intros [H | H].
  - unfold set_fields in H. destruct (u_id r =? i); simpl in H; auto.
  - destruct (IH H); auto.
Qed.

Lemma db_ok_insert (t : table) (n e ts : string) :
  db_ok t -> rowid_left t -> email_taken e (rows t) = false ->
  db_ok (mkTable (rows t ++ [mkUser (last_rowid t + 1) n e ts])
                 (last_rowid t + 1)).
Proof.
  unfold db_ok, rowid_left. intros [Hi [He Hr]] Hleft Hfree. simpl.
  rewrite !map_app. simpl. repeat split.
  - apply NoDup_app; [exact Hi | repeat constructor; simpl; tauto |].
    intros x Hx [<- | []]. apply in_map_iff in Hx.
    destruct Hx as [r [Hid Hin]]. apply last_rowid_upper in Hin. lia.
  - apply NoDup_app; [exact He | repeat constructor; simpl; tauto |].
    intros x Hx [<- | []]. now apply email_free_not_In in Hfree.
  - apply Forall_app. split; [exact Hr|]. constructor; [|constructor]. simpl.
    pose proof (last_rowid_nonneg t Hr). lia.
Qed.

Lemma db_ok_update (t : table) (i : Z) (n e : string) :
  db_ok t ->
  email_taken e (filter (fun r => negb (u_id r =? i)) (rows t)) = false ->
  db_ok (mkTable (map (set_fields i n e) (rows t)) (seq t)).
Proof.
  unfold db_ok. simpl. intros [Hi [He Hr]] Hfree. repeat split.
  - rewrite map_map. erewrite map_ext; [exact Hi|]. apply set_fields_id.
  - clear Hr. induction (rows t) as [|r l IH]; simpl in *; [constructor|].
    inversion Hi as [|? ? Hri Hli]; subst.
    inversion He as [|? ? Hre Hle]; subst.
    unfold set_fields at 1. destruct (u_id r =? i) eqn:E; simpl in *.
    + apply Z.eqb_eq in E. subst i.
      rewrite map_set_fields_absent by exact Hri.
      constructor; [|exact Hle].
      apply email_free_not_In in Hfree. intros Hin. apply Hfree.
      apply in_map_iff in Hin. destruct Hin as [x [Hx Hin]].
      apply in_map_iff. exists x. split; [exact Hx|].
      apply filter_In. split; [exact Hin|].
      apply negb_true_iff, Z.eqb_neq. intros Heq. apply Hri.
      rewrite <- Heq. now apply in_map.
    + apply orb_false_iff in Hfree. destruct Hfree as [Hne Hfree].
      apply String.eqb_neq in Hne.
      constructor; [|now apply IH].
      intros Hin. apply set_fields_emails in Hin. destruct Hin; auto.
  - apply Forall_forall. intros x Hx. apply in_map_iff in Hx.
    destruct Hx as [r [<- Hin]]. rewrite set_fields_id.
    rewrite Forall_forall in Hr. now apply Hr.
Qed.

Lemma db_ok_delete (t : table) (i : Z) :
  db_ok t ->
  db_ok (mkTable (filter (fun r => negb (u_id r =? i)) (rows t)) (seq t)).
Proof.
  unfold db_ok. simpl. intros [Hi [He Hr]]. repeat split.
  - now apply filter_keeps_distinct.
  - now apply filter_keeps_distinct.
  - apply Forall_forall. intros x Hx. apply filter_In in Hx.
    rewrite Forall_forall in Hr. now apply Hr.
Qed.

(** ** The schema at start-up *)

Lemma init_db_fresh : db_ok (init_db None).
Proof. repeat split; constructor. Qed.

Lemma init_db_idempotent (db : option table) :
  init_db (Some (init_db db)) = init_db db.
Proof. reflexivity. Qed.

(** ** Running a view *)

Lemma sql_text_inv (v : pyval) (s : string) :
  sql_text v = Some s ->
  exists p, bind_param v = Ok p /\ text_affinity p = Some s.
Proof.
  unfold sql_text. destruct (bind_param v) as [p|]; [eauto | discriminate].
Qed.

Lemma rowid_left_leb (t : table) :
  rowid_left t -> (MAX_ROWID <=? last_rowid t) = false.
Proof. unfold rowid_left. intros H. apply Z.leb_gt. exact H. Qed.

Lemma truthy_dict (d : list (string * pyval)) :
  truthy (PDict d) = true <-> d <> [].
Proof. destruct d; simpl; split; congruence. Qed.

(** ** PUT on an id that is not stored *)

(** C1, as the specification states it, fails: an empty JSON object sent
    to an id that is not stored is answered 400, before the row is looked
    up; so it is not for every body that the answer is 404. *)
Lemma update_user_missing_id_empty_body :
  has_id 1 empty_table = false /\
  serve (update_user 1 (PDict [])) empty_table
  = (error_response "JSON body required" 400, empty_table) /\
  ~ (forall (user_id : Z) (data : pyval) (t : table),
        has_id user_id t = false ->
        fst (serve (update_user user_id data) t)
        = error_response "User not found" 404).
Proof.
  split; [reflexivity|]. split; [reflexivity|].
  intros H. specialize (H 1 (PDict []) empty_table eq_refl).
  vm_compute in H. discriminate H.
Qed.

(** C1 (amended): for a PUT on a 64-bit id that no stored row has, the two
    body checks come first: a falsy body is answered 400 "JSON body
    required", a JSON object in which neither name nor email is truthy is
    answered 400 "Nothing to update", and every JSON object with a truthy
    name or email is answered 404 "User not found".  The table is left as
    it was in all three cases. *)
Theorem update_user_missing_id (user_id : Z) (t : table) :
  MIN_INT64 <= user_id <= MAX_ROWID ->
  has_id user_id t = false ->
  (forall data, truthy data = false ->
     serve (update_user user_id data) t
     = (error_response "JSON body required" 400, t)) /\
  (forall d, d <> [] ->
     truthy (dict_get d "name") = false ->
     truthy (dict_get d "email") = false ->
     serve (update_user user_id (PDict d)) t
     = (error_response "Nothing to update" 400, t)) /\
  (forall d,
     truthy (dict_get d "name") || truthy (dict_get d "email") = true ->
     serve (update_user user_id (PDict d)) t
     = (error_response "User not found" 404, t)).
Proof.
  intros Hrange Habsent. repeat split.
  - intros data Hd. unfold_view. now rewrite Hd.
  - intros d Hd Hn He. apply truthy_dict in Hd.
    unfold_view. now rewrite Hd, Hn, He.
  - intros d Hne.
    assert (truthy (PDict d) = true) as Hd by (now destruct d).
    unfold_view. rewrite Hd. cbn [negb].
    apply orb_true_iff in Hne.
    replace (negb (truthy (dict_get d "name"))
             && negb (truthy (dict_get d "email"))) with false
      by (destruct Hne as [-> | ->]; simpl;
          [reflexivity | now rewrite andb_false_r]).
    rewrite (bind_param_int _ Hrange).
    cbn [working]. now rewrite (has_id_false_find _ _ Habsent).
Qed.

Lemma update_user_missing_id_witness :
  serve (update_user 7 (PDict [("name", PStr "Zed")])) two_users
  = (error_response "User not found" 404, two_users).
Proof.
  apply (update_user_missing_id 7 two_users);
    [vm_compute; split; discriminate | reflexivity | reflexivity].
Defined.

(** ** POST with an email that is stored *)

(** Every POST either leaves the table as it was and is not answered 201,
    or is answered 201 after one INSERT of a row whose email was free. *)
Lemma create_user_outcome (now : string) (data : pyval) (t : table) :
  (snd (serve (create_user now data) t) = t /\
   status (fst (serve (create_user now data) t)) <> 201) \/
  (exists d n e,
     data = PDict d /\
     truthy (dict_get d "name") = true /\
     truthy (dict_get d "email") = true /\
     sql_text (dict_get d "name") = Some n /\
     sql_text (dict_get d "email") = Some e /\
     email_taken e (rows t) = false /\
     rowid_left t /\
     serve (create_user now data) t
     = (created, mkTable (rows t ++ [mkUser (last_rowid t + 1) n e now])
                         (last_rowid t + 1))).
Proof.
  unfold_view.
  destruct (truthy data) eqn:Hd; cbn [negb];
    [|left; split; [reflexivity | discriminate]].
  destruct data as [| | | | |d];
    try (left; split; [reflexivity | discriminate]).
  destruct (truthy (dict_get d "name")) eqn:Hn; cbn [negb orb];
    [|left; split; [reflexivity | discriminate]].
  destruct (truthy (dict_get d "email")) eqn:He; cbn [negb];
    [|left; split; [reflexivity | discriminate]].
  unfold sql_text, rowid_left. cbn [bind_param working committed].
  destruct (bind_param (dict_get d "name")) as [pn|ex] eqn:Hbn;
    [|left; destruct ex; split; solve [reflexivity | discriminate]].
  destruct (bind_param (dict_get d "email")) as [pe|ex] eqn:Hbe;
    [|left; destruct ex; split; solve [reflexivity | discriminate]].
  destruct (MAX_ROWID <=? last_rowid t) eqn:Hfull;
    [left; split; [reflexivity | discriminate]|].
  destruct (text_affinity pn) as [n|] eqn:Han;
    [|left; split; [reflexivity | discriminate]].
  destruct (text_affinity pe) as [e|] eqn:Hae;
    [|left; split; [reflexivity | discriminate]].
  cbn [text_affinity].
  destruct (email_taken e (rows t)) eqn:Hfree;
    [left; split; [reflexivity | discriminate]|].
  right. exists d, n, e. rewrite Hbn, Hbe. apply Z.leb_gt in Hfull.
  repeat (split; [first [reflexivity | assumption]|]). reflexivity.
Qed.

(** C2, as the specification states it, fails: in a table that holds the
    email and in which AUTOINCREMENT has handed out its last rowid, the
    INSERT fails for want of a rowid before uniqueness is looked at, and
    the answer is 500, not 409; and a POST with that email and no name is
    answered 400 by the check of the fields. *)
Lemma create_user_duplicate_email_not_always_409 :
  db_ok exhausted_table /\
  email_taken "ann@x.com" (rows exhausted_table) = true /\
  status (fst (serve (create_user scenario_time
                        (PDict [("name", PStr "Bob");
                                ("email", PStr "ann@x.com")]))
                     exhausted_table)) = 500 /\
  serve (create_user scenario_time (PDict [("email", PStr "ann@x.com")]))
        two_users
  = (mkResponse 400 (PDict [("error", PStr "Name and email are required")]),
     two_users) /\
  ~ (forall (now : string) (d : list (string * pyval)) (e : string)
            (t : table),
        db_ok t ->
        truthy (dict_get d "name") = true ->
        dict_get d "email" = PStr e ->
        email_taken e (rows t) = true ->
        fst (serve (create_user now (PDict d)) t)
        = mkResponse 409 (PDict [("error", PStr "Email already exists")])).
Proof.
  split; [apply db_okb_sound; reflexivity|].
  split; [reflexivity|]. split; [reflexivity|]. split; [reflexivity|].
  intros H.
  specialize (H scenario_time
                [("name", PStr "Bob"); ("email", PStr "ann@x.com")]
                "ann@x.com" exhausted_table
                (db_okb_sound exhausted_table eq_refl)
                eq_refl eq_refl eq_refl).
  vm_compute in H. discriminate H.
Qed.

(** C2 (amended): in a table that holds a user with email [e], a POST
    with that email writes nothing, whatever else its body holds: the
    table afterwards is the table before, so no row is added and exactly
    one row has the email.  When the POST has a name and an email that are
    truthy and bindable and AUTOINCREMENT has a rowid left, the answer is
    409 with body {"error": "Email already exists"}. *)
Theorem create_user_duplicate_email
    (now : string) (d : list (string * pyval)) (e : string) (t : table) :
  db_ok t ->
  sql_text (dict_get d "email") = Some e ->
  email_taken e (rows t) = true ->
  snd (serve (create_user now (PDict d)) t) = t /\
  count_email e (snd (serve (create_user now (PDict d)) t)) = 1%nat /\
  (forall n,
     truthy (dict_get d "name") = true ->
     sql_text (dict_get d "name") = Some n ->
     truthy (dict_get d "email") = true ->
     rowid_left t ->
     fst (serve (create_user now (PDict d)) t)
     = mkResponse 409 (PDict [("error", PStr "Email already exists")])).
Proof.
  intros Hok Het Htaken.
  assert (snd (serve (create_user now (PDict d)) t) = t) as Hsame.
  { destruct (create_user_outcome now (PDict d) t)
      as [[Hsame _] | [d' [n [e' [Hd [_ [_ [_ [Het' [Hfree _]]]]]]]]]];
      [exact Hsame|].
    injection Hd as <-. rewrite Het in Het'. injection Het' as <-.
    congruence. }
  split; [exact Hsame|]. split.
  - rewrite Hsame. apply count_email_unique; [apply Hok | exact Htaken].
  - intros n Hn Hnt He Hleft.
    assert (truthy (PDict d) = true) as Hd
      by (destruct d; [discriminate Hn | reflexivity]).
    destruct (sql_text_inv _ _ Hnt) as [pn [Hbn Han]].
    destruct (sql_text_inv _ _ Het) as [pe [Hbe Hae]].
    unfold_view. rewrite Hd, Hn, He. cbn [negb orb].
    rewrite Hbn, Hbe. cbn [bind_param working].
    rewrite (rowid_left_leb _ Hleft), Han, Hae. cbn [text_affinity].
    now rewrite Htaken.
Qed.

Lemma create_user_duplicate_email_witness :
  snd (serve (create_user "2024-03-01T09:30:00"
                (PDict [("name", PStr "Bob"); ("email", PStr "ann@x.com")]))
             two_users) = two_users /\
  count_email "ann@x.com"
    (snd (serve (create_user "2024-03-01T09:30:00"
                   (PDict [("name", PStr "Bob"); ("email", PStr "ann@x.com")]))
                two_users)) = 1%nat /\
  fst (serve (create_user "2024-03-01T09:30:00"
                (PDict [("name", PStr "Bob"); ("email", PStr "ann@x.com")]))
             two_users)
  = mkResponse 409 (PDict [("error", PStr "Email already exists")]).
Proof.
  destruct (create_user_duplicate_email "2024-03-01T09:30:00"
              [("name", PStr "Bob"); ("email", PStr "ann@x.com")]
              "ann@x.com" two_users
              (db_okb_sound two_users eq_refl) eq_refl eq_refl)
    as [Hsame [Hcount Hresp]].
  split; [exact Hsame|]. split; [exact Hcount|].
  apply (Hresp "Bob"); reflexivity.
Defined.

(** ** POST: the contract of [create_user] *)

(** C4, as the specification states it, fails: a POST with no JSON body is
    answered 415 by [request.get_json()] itself, and one whose JSON does
    not parse gets the framework's page for 400, not the body
    {"error": "JSON body required"}; and the empty object, in which name
    and email are missing, is answered "JSON body required", not "Name and
    email are required". *)
Lemma create_user_contract_fails :
  answer_of scenario_time NotJson CreateUser empty_table
  = (FrameworkPage 415, empty_table) /\
  answer_of scenario_time BadJson CreateUser empty_table
  = (FrameworkPage 400, empty_table) /\
  dict_get [] "name" = PNone /\
  dict_get [] "email" = PNone /\
  answer_of scenario_time (Json (PDict [])) CreateUser empty_table
  = (Says (mkResponse 400 (PDict [("error", PStr "JSON body required")])),
     empty_table) /\
  ~ (forall (b : entity) (d : list (string * pyval)),
        (b = NotJson \/ b = BadJson ->
         fst (answer_of scenario_time b CreateUser empty_table)
         = Says (mkResponse 400
                   (PDict [("error", PStr "JSON body required")]))) /\
        (truthy (dict_get d "name") = false ->
         fst (answer_of scenario_time (Json (PDict d)) CreateUser empty_table)
         = Says (mkResponse 400
                   (PDict [("error",
                            PStr "Name and email are required")])))).
Proof.
  repeat (split; [reflexivity|]).
  intros H. destruct (H NotJson []) as [H1 _].
  specialize (H1 (or_introl eq_refl)). discriminate H1.
Qed.

(** C4 (amended): POST /users, for a body that [request.get_json()]
    parses.  A falsy value (null, the empty object, ...) is answered 400
    with body {"error": "JSON body required"}; a JSON object that is not
    empty and in which name or email is missing or falsy is answered 400
    with body {"error": "Name and email are required"}; when both are
    given and the INSERT goes through, the answer is 201 with body
    {"message": "User created"} (not the user) and the table gains one row
    holding the name, the email and the time of the request as
    [created_at].  A 201 is only ever the answer to a JSON object with a
    truthy name and a truthy email. *)
Theorem create_user_contract (now : string) (t : table) :
  (forall data, truthy data = false ->
     answer_of now (Json data) CreateUser t
     = (Says (mkResponse 400 (PDict [("error", PStr "JSON body required")])),
        t)) /\
  (forall d, d <> [] ->
     truthy (dict_get d "name") && truthy (dict_get d "email") = false ->
     answer_of now (Json (PDict d)) CreateUser t
     = (Says (mkResponse 400
                (PDict [("error", PStr "Name and email are required")])),
        t)) /\
  (forall d n e,
     truthy (dict_get d "name") = true ->
     truthy (dict_get d "email") = true ->
     sql_text (dict_get d "name") = Some n ->
     sql_text (dict_get d "email") = Some e ->
     email_taken e (rows t) = false ->
     rowid_left t ->
     answer_of now (Json (PDict d)) CreateUser t
     = (Says (mkResponse 201 (PDict [("message", PStr "User created")])),
        mkTable (rows t ++ [mkUser (last_rowid t + 1) n e now])
                (last_rowid t + 1))) /\
  (forall b,
     answer_status (fst (answer_of now b CreateUser t)) = 201 ->
     exists d, b = Json (PDict d) /\
               truthy (dict_get d "name") = true /\
               truthy (dict_get d "email") = true).
Proof.
  unfold answer_of. cbn [get_json view_of].
  split; [|split; [|split]].
  - intros data Hd. unfold_view. now rewrite Hd.
  - intros d Hd Hne. apply truthy_dict in Hd.
    unfold_view. rewrite Hd. cbn [negb].
    rewrite <- negb_andb, Hne. reflexivity.
  - intros d n e Hn He Hnt Het Hfree Hleft.
    assert (truthy (PDict d) = true) as Hd
      by (destruct d; [discriminate Hn | reflexivity]).
    destruct (sql_text_inv _ _ Hnt) as [pn [Hbn Han]].
    destruct (sql_text_inv _ _ Het) as [pe [Hbe Hae]].
    unfold_view. rewrite Hd, Hn, He. cbn [negb orb].
    rewrite Hbn, Hbe. cbn [bind_param working].
    rewrite (rowid_left_leb _ Hleft), Han, Hae. cbn [text_affinity].
    now rewrite Hfree.
  - intros [| |data]; cbn [get_json fst answer_status]; try discriminate.
    destruct (create_user_outcome now data t)
      as [[_ Hno] | [d [n [e [-> [Hn [He [_ [_ [_ [_ _]]]]]]]]]]].
    + intros Hst. exfalso. apply Hno.
      destruct (serve (create_user now data) t). exact Hst.
    + intros _. exists d. auto.
Qed.

Lemma create_user_contract_witness :
  answer_of "2024-03-01T09:30:00"
    (Json (PDict [("name", PStr "Cy"); ("email", PStr "cy@x.com")]))
    CreateUser two_users
  = (Says (mkResponse 201 (PDict [("message", PStr "User created")])),
     mkTable [ann; bob; mkUser 3 "Cy" "cy@x.com" "2024-03-01T09:30:00"] 3).
Proof.
  apply (proj1 (proj2 (proj2
           (create_user_contract "2024-03-01T09:30:00" two_users)))
           [("name", PStr "Cy"); ("email", PStr "cy@x.com")] "Cy" "cy@x.com");
    reflexivity.
Defined.

(** ** The schema across requests *)

Lemma keeps_ret {A} (a : A) : keeps (ret a).
Proof. intros c H. exact H. Qed.

Lemma keeps_raise {A} (e : exn) : keeps (@raise A e).
Proof. intros c H. exact H. Qed.

Lemma keeps_lift {A} (r : result A) : keeps (lift r).
Proof. intros c H. exact H. Qed.

Lemma keeps_get_working : keeps get_working.
Proof. intros c H. exact H. Qed.

Lemma keeps_commit : keeps commit.
Proof. intros c [_ H]. split; exact H. Qed.

Lemma keeps_set_working (t : table) : db_ok t -> keeps (set_working t).
Proof. intros Ht c [H _]. split; [exact H | exact Ht]. Qed.

Lemma keeps_bind {A B} (m : M A) (k : A -> M B) :
  keeps m -> (forall a, keeps (k a)) -> keeps (bind m k).
Proof.
  intros Hm Hk c Hc. unfold bind. specialize (Hm c Hc).
  destruct (m c) as [[a|e] c']; simpl in *; [now apply Hk | exact Hm].
Qed.

Lemma keeps_try_except {A} (body handler : M A) (e : exn) :
  keeps body -> keeps handler -> keeps (try_except body e handler).
Proof.
  intros Hb Hh c Hc. unfold try_except. specialize (Hb c Hc).
  destruct (body c) as [[a|e'] c']; simpl in *; [exact Hb|].
  destruct (exn_eqb e' e); [now apply Hh | exact Hb].
Qed.

Lemma keeps_if {A} (b : bool) (m1 m2 : M A) :
  keeps m1 -> keeps m2 -> keeps (if b then m1 else m2).
Proof. now destruct b. Qed.

(** A step that reads the working table and then acts on it. *)
Lemma keeps_reading {A} (k : table -> M A) :
  (forall t, db_ok t -> forall c, working c = t -> conn_ok c ->
             conn_ok (snd (k t c))) ->
  keeps (bind get_working k).
Proof.
  intros H c Hc. unfold bind, get_working. apply (H (working c)); auto.
  apply Hc.
Qed.

Lemma keeps_insert_user (name email created_at : pyval) :
  keeps (insert_user name email created_at).
Proof.
  unfold insert_user.
  repeat (apply keeps_bind; [apply keeps_lift | intros ?]).
  apply keeps_reading. intros t Ht c Hw Hc.
  destruct (MAX_ROWID <=? last_rowid t) eqn:Hfull; [exact Hc|].
  destruct (text_affinity a) as [n|]; [|exact Hc].
  destruct (text_affinity a0) as [e|]; [|exact Hc].
  destruct (text_affinity a1) as [ts|]; [|exact Hc].
  destruct (email_taken e (rows t)) eqn:Hfree; [exact Hc|].
  apply keeps_set_working; [|exact Hc].
  apply db_ok_insert; auto. unfold rowid_left. now apply Z.leb_gt.
Qed.

Lemma keeps_update_fields (new_name new_email : pyval) (user_id : Z) :
  keeps (update_fields new_name new_email user_id).
Proof.
  unfold update_fields.
  repeat (apply keeps_bind; [apply keeps_lift | intros ?]).
  apply keeps_reading. intros t Ht c Hw Hc.
  destruct a1 as [|i|]; try exact Hc.
  destruct (existsb (fun r => u_id r =? i) (rows t)); [|exact Hc].
  destruct (text_affinity a) as [n|]; [|exact Hc].
  destruct (text_affinity a0) as [e|]; [|exact Hc].
  destruct (email_taken e _) eqn:Hfree; [exact Hc|].
  apply keeps_set_working; [|exact Hc]. now apply db_ok_update.
Qed.

Lemma keeps_delete_by_id (user_id : Z) : keeps (delete_by_id user_id).
Proof.
  unfold delete_by_id.
  apply keeps_bind; [apply keeps_lift | intros p].
  apply keeps_reading. intros t Ht c Hw Hc.
  destruct p as [|i|]; try exact Hc.
  apply keeps_bind; [|intros; apply keeps_ret|exact Hc].
  apply keeps_set_working. now apply db_ok_delete.
Qed.

Lemma keeps_select_by_id (user_id : Z) : keeps (select_by_id user_id).
Proof.
  unfold select_by_id.
  apply keeps_bind; [apply keeps_lift | intros p].
  apply keeps_bind; [apply keeps_get_working | intros t]. apply keeps_ret.
Qed.

Lemma keeps_py_get (data : pyval) (key : string) : keeps (py_get data key).
Proof. destruct data; simpl; first [apply keeps_ret | apply keeps_raise]. Qed.

Lemma keeps_create_user (now : string) (data : pyval) :
  keeps (create_user now data).
Proof.
  unfold create_user. apply keeps_if; [apply keeps_ret|].
  apply keeps_bind; [apply keeps_py_get | intros name].
  apply keeps_bind; [apply keeps_py_get | intros email].
  apply keeps_if; [apply keeps_ret|].
  apply keeps_try_except; [|apply keeps_ret].
  apply keeps_bind; [apply keeps_insert_user | intros _].
  apply keeps_bind; [apply keeps_commit | intros _]. apply keeps_ret.
Qed.

Lemma keeps_update_user (user_id : Z) (data : pyval) :
  keeps (update_user user_id data).
Proof.
  unfold update_user. apply keeps_if; [apply keeps_ret|].
  apply keeps_bind; [apply keeps_py_get | intros name].
  apply keeps_bind; [apply keeps_py_get | intros email].
  apply keeps_if; [apply keeps_ret|].
  apply keeps_bind; [apply keeps_select_by_id | intros [u|]];
    [|apply keeps_ret].
  apply keeps_try_except; [|apply keeps_ret].
  apply keeps_bind; [apply keeps_update_fields | intros _].
  apply keeps_bind; [apply keeps_commit | intros _]. apply keeps_ret.
Qed.

Lemma keeps_delete_user (user_id : Z) : keeps (delete_user user_id).
Proof.
  unfold delete_user.
  apply keeps_bind; [apply keeps_delete_by_id | intros n].
  apply keeps_bind; [apply keeps_commit | intros _].
  apply keeps_if; apply keeps_ret.
Qed.

Lemma serve_keeps (view : M response) (t : table) :
  keeps view -> db_ok t -> db_ok (snd (serve view t)).
Proof.
  intros Hk Ht. unfold serve.
  assert (conn_ok (get_db t)) as Hc by (split; exact Ht).
  specialize (Hk _ Hc).
  destruct (view (get_db t)) as [[r|e] c]; simpl in *; apply Hk.
Qed.

(** C3: email uniqueness is an invariant.  From a table that satisfies the
    schema, the table left by any POST /users, PUT /users/{id} or DELETE
    /users/{id} has no two rows with one email.  It is the statements that
    enforce this, whatever the handler passes them: INSERT and UPDATE keep
    the schema in the connection they run in, an INSERT whose email is
    stored does not go through, and neither does an UPDATE whose email
    another row holds; both leave the connection as it was. *)
Theorem email_uniqueness_invariant
    (now : string) (user_id : Z) (data : pyval) (t : table) :
  db_ok t ->
  emails_unique (snd (serve (create_user now data) t)) /\
  emails_unique (snd (serve (update_user user_id data) t)) /\
  emails_unique (snd (serve (delete_user user_id) t)) /\
  (forall name email created_at, keeps (insert_user name email created_at)) /\
  (forall new_name new_email i, keeps (update_fields new_name new_email i)) /\
  (forall name email created_at e c,
     sql_text email = Some e ->
     email_taken e (rows (working c)) = true ->
     exists ex, insert_user name email created_at c = (Raise ex, c)) /\
  (forall new_name new_email i e c,
     sql_text new_email = Some e ->
     email_taken e (filter (fun r => negb (u_id r =? i)) (rows (working c)))
     = true ->
     has_id i (working c) = true ->
     exists ex, update_fields new_name new_email i c = (Raise ex, c)).
Proof.
  intros Hok.
  split; [apply (serve_keeps _ _ (keeps_create_user now data) Hok)|].
  split; [apply (serve_keeps _ _ (keeps_update_user user_id data) Hok)|].
  split; [apply (serve_keeps _ _ (keeps_delete_user user_id) Hok)|].
  split; [exact keeps_insert_user|].
  split; [exact keeps_update_fields|].
  split.
  - intros name email created_at e c He Htaken.
    destruct (sql_text_inv _ _ He) as [pe [Hbe Hae]].
    unfold insert_user, bind, lift, raise, get_working, set_working.
    destruct (bind_param name) as [pn|]; [|eauto].
    rewrite Hbe.
    destruct (bind_param created_at) as [pc|]; [|eauto].
    destruct (MAX_ROWID <=? _); [eauto|].
    destruct (text_affinity pn); [|eauto].
    rewrite Hae.
    destruct (text_affinity pc); [|eauto].
    rewrite Htaken. eauto.
  - intros new_name new_email i e c He Htaken Hhas.
    destruct (sql_text_inv _ _ He) as [pe [Hbe Hae]].
    unfold update_fields, bind, lift, raise, get_working, set_working, ret.
    destruct (bind_param new_name) as [pn|]; [|eauto].
    rewrite Hbe.
    destruct (bind_param_int_cases i) as [-> | ->]; [|eauto].
    unfold has_id in Hhas. rewrite Hhas.
    destruct (text_affinity pn); [|eauto].
    rewrite Hae, Htaken. eauto.
Qed.

Lemma email_uniqueness_invariant_witness :
  emails_unique
    (snd (serve (update_user 1 (PDict [("email", PStr "bob@x.com")]))
                two_users)) /\
  emails_unique
    (snd (serve (create_user "2024-03-01T09:30:00"
                   (PDict [("name", PStr "Cy"); ("email", PStr "cy@x.com")]))
                two_users)).
Proof.
  split.
  - apply (email_uniqueness_invariant "" 1
             (PDict [("email", PStr "bob@x.com")]) two_users).
    apply db_okb_sound. reflexivity.
  - apply (email_uniqueness_invariant "2024-03-01T09:30:00" 1
             (PDict [("name", PStr "Cy"); ("email", PStr "cy@x.com")])
             two_users).
    apply db_okb_sound. reflexivity.
Defined.

(** ** PUT: what a request can do to the table *)

Lemma NoDup_map_inj {A B} (f : A -> B) (l : list A) (x y : A) :
  NoDup (map f l) -> In x l -> In y l -> f x = f y -> x = y.
Proof.
  induction l as [|a l IH]; simpl; [tauto|].
  intros H Hx Hy Hf. inversion H as [|? ? Ha Hl]; subst.
  destruct Hx as [-> | Hx], Hy as [-> | Hy]; auto.
  - exfalso. apply Ha. rewrite Hf. now apply in_map.
  - exfalso. apply Ha. rewrite <- Hf. now apply in_map.
Qed.

(** The email of a stored row is held by no row with another id. *)
Lemma own_email_free (t : table) (i : Z) (u : user) :
  db_ok t -> lookup i t = Some u ->
  email_taken (u_email u) (filter (fun r => negb (u_id r =? i)) (rows t))
  = false.
Proof.
  intros [_ [He _]] Hu. apply find_some_has_id in Hu.
  destruct Hu as [_ [Hin Hid]].
  destruct (email_taken _ _) eqn:E; [|reflexivity]. exfalso.
  unfold email_taken in E. apply existsb_exists in E.
  destruct E as [r [Hr Heq]]. apply filter_In in Hr. destruct Hr as [Hr Hne].
  apply String.eqb_eq in Heq. apply negb_true_iff, Z.eqb_neq in Hne.
  apply Hne. rewrite <- Hid. f_equal.
  now apply (NoDup_map_inj u_email (rows t)).
Qed.

Lemma lookup_set_fields (t : table) (i : Z) (n e : string) (u : user) :
  lookup i t = Some u ->
  lookup i (mkTable (map (set_fields i n e) (rows t)) (seq t))
  = Some (mkUser i n e (u_created_at u)).
Proof.
  unfold lookup. simpl. induction (rows t) as [|r l IH]; simpl; [discriminate|].
  rewrite set_fields_id. destruct (u_id r =? i) eqn:E; [|exact IH].
  intros [= ->]. unfold set_fields. rewrite E.
  apply Z.eqb_eq in E. now rewrite E.
Qed.

(** Every PUT either leaves the table as it was and is not answered 200, or
    is answered 200 after one UPDATE of the row with the id. *)
Lemma update_user_outcome (user_id : Z) (data : pyval) (t : table) :
  (snd (serve (update_user user_id data) t) = t /\
   status (fst (serve (update_user user_id data) t)) <> 200) \/
  (exists d u n e,
     data = PDict d /\
     lookup user_id t = Some u /\
     sql_text (if truthy (dict_get d "name") then dict_get d "name"
               else PStr (u_name u)) = Some n /\
     sql_text (if truthy (dict_get d "email") then dict_get d "email"
               else PStr (u_email u)) = Some e /\
     email_taken e (filter (fun r => negb (u_id r =? user_id)) (rows t))
     = false /\
     serve (update_user user_id data) t
     = (updated, mkTable (map (set_fields user_id n e) (rows t)) (seq t))).
Proof.
  unfold_view.
  destruct (truthy data) eqn:Hd; cbn [negb];
    [|left; split; [reflexivity | discriminate]].
  destruct data as [| | | | |d];
    try (left; split; [reflexivity | discriminate]).
  destruct (negb (truthy (dict_get d "name"))
            && negb (truthy (dict_get d "email")));
    [left; split; [reflexivity | discriminate]|].
  destruct (bind_param_int_cases user_id) as [-> | ->];
    [|left; split; [reflexivity | discriminate]].
  cbn [working committed].
  destruct (lookup user_id t) as [u|] eqn:Hu;
    [|left; split; [reflexivity | discriminate]].
  destruct (find_some_has_id _ _ _ Hu) as [Hhas [Hin Hid]].
  unfold has_id in Hhas. unfold sql_text.
  cbv beta. cbn [working committed]. rewrite Hhas.
  destruct (bind_param (if truthy (dict_get d "name") then _ else _))
    as [pn|ex] eqn:Hbn;
    [|left; destruct ex; split; solve [reflexivity | discriminate]].
  destruct (bind_param (if truthy (dict_get d "email") then _ else _))
    as [pe|ex] eqn:Hbe;
    [|left; destruct ex; split; solve [reflexivity | discriminate]].
  destruct (text_affinity pn) as [n|] eqn:Han;
    [|left; split; [reflexivity | discriminate]].
  destruct (text_affinity pe) as [e|] eqn:Hae;
    [|left; split; [reflexivity | discriminate]].
  destruct (email_taken e _) eqn:Hfree;
    [left; split; [reflexivity | discriminate]|].
  right. exists d, u, n, e. rewrite Hbn, Hbe.
  repeat (split; [first [reflexivity | assumption]|]). reflexivity.
Qed.

Lemma update_user_accepted
    (user_id : Z) (d : list (string * pyval)) (t : table) (u : user)
    (n e : string) :
  MIN_INT64 <= user_id <= MAX_ROWID ->
  truthy (dict_get d "name") || truthy (dict_get d "email") = true ->
  lookup user_id t = Some u ->
  sql_text (if truthy (dict_get d "name") then dict_get d "name"
            else PStr (u_name u)) = Some n ->
  sql_text (if truthy (dict_get d "email") then dict_get d "email"
            else PStr (u_email u)) = Some e ->
  email_taken e (filter (fun r => negb (u_id r =? user_id)) (rows t)) = false ->
  serve (update_user user_id (PDict d)) t
  = (updated, mkTable (map (set_fields user_id n e) (rows t)) (seq t)).
Proof.
  intros Hrange Hsome Hu Hn He Hfree.
  assert (truthy (PDict d) = true) as Hd by (now destruct d).
  destruct (sql_text_inv _ _ Hn) as [pn [Hbn Han]].
  destruct (sql_text_inv _ _ He) as [pe [Hbe Hae]].
  destruct (find_some_has_id _ _ _ Hu) as [Hhas _]. unfold has_id in Hhas.
  unfold_view. rewrite Hd. cbn [negb].
  replace (negb (truthy (dict_get d "name"))
           && negb (truthy (dict_get d "email"))) with false
    by (apply orb_true_iff in Hsome; destruct Hsome as [-> | ->]; simpl;
        [reflexivity | now rewrite andb_false_r]).
  rewrite (bind_param_int _ Hrange). cbn [working committed]. rewrite Hu.
  cbv beta. cbn [working committed].
  rewrite Hbn, Hbe, Hhas, Han, Hae, Hfree. reflexivity.
Qed.

Lemma update_user_rejected
    (user_id : Z) (d : list (string * pyval)) (t : table) (u : user)
    (n e : string) :
  MIN_INT64 <= user_id <= MAX_ROWID ->
  truthy (dict_get d "name") || truthy (dict_get d "email") = true ->
  lookup user_id t = Some u ->
  sql_text (if truthy (dict_get d "name") then dict_get d "name"
            else PStr (u_name u)) = Some n ->
  sql_text (if truthy (dict_get d "email") then dict_get d "email"
            else PStr (u_email u)) = Some e ->
  email_taken e (filter (fun r => negb (u_id r =? user_id)) (rows t)) = true ->
  serve (update_user user_id (PDict d)) t
  = (error_response "Email already exists" 409, t).
Proof.
  intros Hrange Hsome Hu Hn He Htaken.
  assert (truthy (PDict d) = true) as Hd by (now destruct d).
  destruct (sql_text_inv _ _ Hn) as [pn [Hbn Han]].
  destruct (sql_text_inv _ _ He) as [pe [Hbe Hae]].
  destruct (find_some_has_id _ _ _ Hu) as [Hhas _]. unfold has_id in Hhas.
  unfold_view. rewrite Hd. cbn [negb].
  replace (negb (truthy (dict_get d "name"))
           && negb (truthy (dict_get d "email"))) with false
    by (apply orb_true_iff in Hsome; destruct Hsome as [-> | ->]; simpl;
        [reflexivity | now rewrite andb_false_r]).
  rewrite (bind_param_int _ Hrange). cbn [working committed]. rewrite Hu.
  cbv beta. cbn [working committed].
  rewrite Hbn, Hbe, Hhas, Han, Hae, Htaken. reflexivity.
Qed.

Lemma lookup_id_range (t : table) (i : Z) (u : user) :
  db_ok t -> lookup i t = Some u -> MIN_INT64 <= i <= MAX_ROWID.
Proof.
  intros Hok Hu. apply (db_ok_id_range t i Hok).
  now apply (find_some_has_id _ _ _ Hu).
Qed.

(** C5: a partial PUT on a stored id.  When the body gives no email
    (absent or falsy), the row keeps its email whatever the answer is, and
    a name that is given (truthy, bindable) replaces the old one with
    answer 200; when the body gives no name, the row keeps its name
    whatever the answer is, and an email that is given replaces the old
    one with answer 200, unless another row holds it: then the answer is
    409 and nothing changes. *)
Theorem update_user_partial
    (user_id : Z) (d : list (string * pyval)) (t : table) (u : user) :
  db_ok t ->
  lookup user_id t = Some u ->
  (truthy (dict_get d "email") = false ->
     (exists u',
        lookup user_id (snd (serve (update_user user_id (PDict d)) t))
        = Some u' /\ u_email u' = u_email u) /\
     (forall n,
        truthy (dict_get d "name") = true ->
        sql_text (dict_get d "name") = Some n ->
        fst (serve (update_user user_id (PDict d)) t) = updated /\
        lookup user_id (snd (serve (update_user user_id (PDict d)) t))
        = Some (mkUser user_id n (u_email u) (u_created_at u)))) /\
  (truthy (dict_get d "name") = false ->
     (exists u',
        lookup user_id (snd (serve (update_user user_id (PDict d)) t))
        = Some u' /\ u_name u' = u_name u) /\
     (forall e,
        truthy (dict_get d "email") = true ->
        sql_text (dict_get d "email") = Some e ->
        email_taken e (filter (fun r => negb (u_id r =? user_id)) (rows t))
        = false ->
        fst (serve (update_user user_id (PDict d)) t) = updated /\
        lookup user_id (snd (serve (update_user user_id (PDict d)) t))
        = Some (mkUser user_id (u_name u) e (u_created_at u))) /\
     (forall e,
        truthy (dict_get d "email") = true ->
        sql_text (dict_get d "email") = Some e ->
        email_taken e (filter (fun r => negb (u_id r =? user_id)) (rows t))
        = true ->
        serve (update_user user_id (PDict d)) t
        = (error_response "Email already exists" 409, t))).
Proof.
  intros Hok Hu. pose proof (lookup_id_range _ _ _ Hok Hu) as Hrange.
  split.
  - intros He. split.
    + destruct (update_user_outcome user_id (PDict d) t)
        as [[Hsame _] | [d' [u' [n [e [Hd [Hu' [_ [Het [_ Hrun]]]]]]]]]].
      * rewrite Hsame. eauto.
      * injection Hd as <-. rewrite Hu in Hu'. injection Hu' as <-.
        rewrite He in Het. injection Het as <-.
        rewrite Hrun. cbn [snd].
        rewrite (lookup_set_fields _ _ n (u_email u) _ Hu). eauto.
    + intros n Hn Hnt.
      rewrite (update_user_accepted user_id d t u n (u_email u)); auto.
      * cbn [fst snd]. split; [reflexivity|]. now apply lookup_set_fields.
      * now rewrite Hn.
      * now rewrite Hn.
      * now rewrite He.
      * now apply own_email_free.
  - intros Hn. split; [|split].
    + destruct (update_user_outcome user_id (PDict d) t)
        as [[Hsame _] | [d' [u' [n [e [Hd [Hu' [Hnt [_ [_ Hrun]]]]]]]]]].
      * rewrite Hsame. eauto.
      * injection Hd as <-. rewrite Hu in Hu'. injection Hu' as <-.
        rewrite Hn in Hnt. injection Hnt as <-.
        rewrite Hrun. cbn [snd].
        rewrite (lookup_set_fields _ _ (u_name u) e _ Hu). eauto.
    + intros e He Het Hfree.
      rewrite (update_user_accepted user_id d t u (u_name u) e); auto.
      * cbn [fst snd]. split; [reflexivity|]. now apply lookup_set_fields.
      * rewrite He. apply orb_true_r.
      * now rewrite Hn.
      * now rewrite He.
    + intros e He Het Htaken.
      apply (update_user_rejected user_id d t u (u_name u) e); auto.
      * rewrite He. apply orb_true_r.
      * now rewrite Hn.
      * now rewrite He.
Qed.

Lemma update_user_partial_witness :
  lookup 1 (snd (serve (update_user 1 (PDict [("name", PStr "Anna")]))
                       two_users))
  = Some (mkUser 1 "Anna" "ann@x.com" "2024-01-01T00:00:00") /\
  lookup 1 (snd (serve (update_user 1 (PDict [("email", PStr "ann2@x.com")]))
                       two_users))
  = Some (mkUser 1 "Ann" "ann2@x.com" "2024-01-01T00:00:00").
Proof.
  split.
  - apply (proj2 (proj1 (update_user_partial 1 [("name", PStr "Anna")]
                                 two_users ann
                                 (db_okb_sound two_users eq_refl) eq_refl)
                           eq_refl) "Anna");
      reflexivity.
  - apply (proj1 (proj2 (proj2 (update_user_partial 1
                                   [("email", PStr "ann2@x.com")]
                                   two_users ann
                                   (db_okb_sound two_users eq_refl) eq_refl)
                           eq_refl)) "ann2@x.com");
      reflexivity.
Defined.

(** ** The frame of a PUT *)

Lemma set_fields_frame (i : Z) (n e : string) (l : list user) :
  Forall2 (fun r r' => u_id r' = u_id r /\
                       u_created_at r' = u_created_at r /\
                       (u_id r <> i -> r' = r))
          l (map (set_fields i n e) l).
Proof.
  induction l as [|r l IH]; simpl; constructor; [|exact IH].
  split; [apply set_fields_id|].
  split; [apply set_fields_created_at | apply set_fields_other].
Qed.

(** C9: a PUT that is answered 200 changes no row but the one with the id,
    and of that row neither the id nor [created_at]: the table afterwards
    has the same rows in the same order, each with the id and the
    [created_at] it had, and each row with another id as it was. *)
Theorem update_user_frame (user_id : Z) (data : pyval) (t : table) :
  status (fst (serve (update_user user_id data) t)) = 200 ->
  seq (snd (serve (update_user user_id data) t)) = seq t /\
  Forall2 (fun r r' => u_id r' = u_id r /\
                       u_created_at r' = u_created_at r /\
                       (u_id r <> user_id -> r' = r))
          (rows t) (rows (snd (serve (update_user user_id data) t))).
Proof.
  intros Hst.
  destruct (update_user_outcome user_id data t)
    as [[_ Hno] | [d [u [n [e [_ [_ [_ [_ [_ Hrun]]]]]]]]]]; [contradiction|].
  rewrite Hrun. cbn [snd rows seq]. split; [reflexivity|].
  apply set_fields_frame.
Qed.

Lemma update_user_frame_witness :
  seq (snd (serve (update_user 1 (PDict [("email", PStr "ann2@x.com")]))
                  two_users)) = seq two_users /\
  Forall2 (fun r r' => u_id r' = u_id r /\
                       u_created_at r' = u_created_at r /\
                       (u_id r <> 1 -> r' = r))
          (rows two_users)
          (rows (snd (serve (update_user 1
                               (PDict [("email", PStr "ann2@x.com")]))
                            two_users))).
Proof.
  apply (update_user_frame 1 (PDict [("email", PStr "ann2@x.com")]) two_users).
  reflexivity.
Defined.

(** ** A PUT that collides *)

(** C10: when the email a PUT would store is held by a row with another
    id, the answer is 409 "Email already exists" and the table is as it
    was; and whenever a PUT is answered 409 the table is as it was: the
    UPDATE that failed wrote nothing and nothing was committed before the
    connection was closed. *)
Theorem update_user_conflict (user_id : Z) (data : pyval) (t : table) :
  (forall d u n e,
     data = PDict d ->
     db_ok t ->
     lookup user_id t = Some u ->
     truthy (dict_get d "email") = true ->
     sql_text (dict_get d "email") = Some e ->
     sql_text (if truthy (dict_get d "name") then dict_get d "name"
               else PStr (u_name u)) = Some n ->
     email_taken e (filter (fun r => negb (u_id r =? user_id)) (rows t))
     = true ->
     serve (update_user user_id data) t
     = (error_response "Email already exists" 409, t)) /\
  (status (fst (serve (update_user user_id data) t)) = 409 ->
   snd (serve (update_user user_id data) t) = t).
Proof.
  split.
  - intros d u n e -> Hok Hu He Het Hnt Htaken.
    apply (update_user_rejected user_id d t u n e); auto.
    + now apply (lookup_id_range t user_id u).
    + rewrite He. apply orb_true_r.
    + now rewrite He.
  - intros Hst.
    destruct (update_user_outcome user_id data t)
      as [[Hsame _] | [d [u [n [e [_ [_ [_ [_ [_ Hrun]]]]]]]]]];
      [exact Hsame|].
    rewrite Hrun in Hst. discriminate Hst.
Qed.

Lemma update_user_conflict_witness :
  serve (update_user 1 (PDict [("email", PStr "bob@x.com")])) two_users
  = (error_response "Email already exists" 409, two_users) /\
  snd (serve (update_user 1 (PDict [("email", PStr "bob@x.com")])) two_users)
  = two_users.
Proof.
  split.
  - apply (proj1 (update_user_conflict 1
                    (PDict [("email", PStr "bob@x.com")]) two_users)
             [("email", PStr "bob@x.com")] ann "Ann" "bob@x.com");
      first [reflexivity | apply db_okb_sound; reflexivity].
  - apply (proj2 (update_user_conflict 1
                    (PDict [("email", PStr "bob@x.com")]) two_users)).
    reflexivity.
Defined.

(** ** DELETE, twice *)

Lemma filter_twice {A} (p : A -> bool) (l : list A) :
  filter p (filter p l) = filter p l.
Proof.
  induction l as [|x l IH]; simpl; [reflexivity|].
  destruct (p x) eqn:E; simpl; [rewrite E; f_equal|]; exact IH.
Qed.

Lemma filter_those_removed {A} (p : A -> bool) (l : list A) :
  filter p (filter (fun x => negb (p x)) l) = [].
Proof.
  apply filter_none. intros x Hx. apply filter_In in Hx.
  now apply negb_true_iff.
Qed.

Lemma has_id_rowcount (user_id : Z) (t : table) :
  has_id user_id t = true ->
  (Z.of_nat (length (filter (fun r => u_id r =? user_id) (rows t))) =? 0)
  = false.
Proof.
  unfold has_id. intros H. apply existsb_exists in H.
  destruct H as [r [Hin Hid]].
  assert (In r (filter (fun r => u_id r =? user_id) (rows t))) as Hr
    by (apply filter_In; auto).
  destruct (filter _ (rows t)); [destruct Hr | reflexivity].
Qed.

(** C6: in a table that holds a row with the id, DELETE /users/{id} is
    answered 200 with body {"message": "User deleted"} and leaves the table
    without that row, the other rows untouched; sent again it is answered
    404 with body {"error": "User not found"} and leaves that table as it
    is, so one delete and two deletes end in the same table. *)
Theorem delete_user_twice (user_id : Z) (t : table) :
  db_ok t ->
  has_id user_id t = true ->
  serve (delete_user user_id) t
  = (mkResponse 200 (PDict [("message", PStr "User deleted")]),
     without user_id t) /\
  has_id user_id (without user_id t) = false /\
  (forall r, In r (rows (without user_id t)) <->
             In r (rows t) /\ u_id r <> user_id) /\
  serve (delete_user user_id) (without user_id t)
  = (mkResponse 404 (PDict [("error", PStr "User not found")]),
     without user_id t).
Proof.
  intros Hok Hhas. pose proof (db_ok_id_range _ _ Hok Hhas) as Hrange.
  split; [|split; [|split]].
  - unfold_view. rewrite (bind_param_int _ Hrange). cbn [working committed].
    now rewrite (has_id_rowcount _ _ Hhas).
  - unfold has_id, without. cbn [rows].
    destruct (existsb _ _) eqn:E; [|reflexivity].
    apply existsb_exists in E. destruct E as [r [Hin Hid]].
    apply filter_In in Hin. destruct Hin as [_ Hne].
    rewrite Hid in Hne. discriminate Hne.
  - intros r. unfold without. cbn [rows]. rewrite filter_In.
    now rewrite negb_true_iff, Z.eqb_neq.
  - unfold_view. rewrite (bind_param_int _ Hrange).
    unfold without. cbn [working committed rows seq].
    rewrite filter_those_removed, filter_twice. reflexivity.
Qed.

Lemma delete_user_twice_witness :
  serve (delete_user 1) two_users
  = (mkResponse 200 (PDict [("message", PStr "User deleted")]),
     mkTable [bob] 2) /\
  serve (delete_user 1) (mkTable [bob] 2)
  = (mkResponse 404 (PDict [("error", PStr "User not found")]),
     mkTable [bob] 2).
Proof.
  destruct (delete_user_twice 1 two_users
              (db_okb_sound two_users eq_refl) eq_refl)
    as [H1 [_ [_ H2]]].
  split; [exact H1 | exact H2].
Defined.

(** ** Falsy fields *)

(** C7, as the specification states it, fails: with no other item in the
    body, a name that is absent leaves the empty object, which is answered
    "JSON body required", while a name that is null is answered "Name and
    email are required". *)
Lemma falsy_field_forms_not_uniform :
  serve (create_user scenario_time (PDict (with_field "name" Absent [])))
        empty_table
  = (error_response "JSON body required" 400, empty_table) /\
  serve (create_user scenario_time (PDict (with_field "name" Null [])))
        empty_table
  = (error_response "Name and email are required" 400, empty_table) /\
  ~ (forall (now : string) (user_id : Z) (k : string) (f1 f2 : falsy_form)
            (rest : list (string * pyval)) (t : table),
        k = "name" \/ k = "email" ->
        dict_get rest k = PNone ->
        serve (create_user now (PDict (with_field k f1 rest))) t
        = serve (create_user now (PDict (with_field k f2 rest))) t /\
        serve (update_user user_id (PDict (with_field k f1 rest))) t
        = serve (update_user user_id (PDict (with_field k f2 rest))) t).
Proof.
  split; [reflexivity|]. split; [reflexivity|].
  intros H.
  destruct (H "" 1 "name" Absent Null [] empty_table (or_introl eq_refl)
              eq_refl) as [Hpost _].
  vm_compute in Hpost. discriminate Hpost.
Qed.

(** The views read a JSON object only through the truth and, when truthy,
    the value of its two fields. *)
Lemma views_read_fields
    (now : string) (user_id : Z) (d1 d2 : list (string * pyval)) :
  d1 <> [] -> d2 <> [] ->
  (if truthy (dict_get d1 "name") then dict_get d1 "name" else PNone)
  = (if truthy (dict_get d2 "name") then dict_get d2 "name" else PNone) ->
  (if truthy (dict_get d1 "email") then dict_get d1 "email" else PNone)
  = (if truthy (dict_get d2 "email") then dict_get d2 "email" else PNone) ->
  forall c,
    create_user now (PDict d1) c = create_user now (PDict d2) c /\
    update_user user_id (PDict d1) c = update_user user_id (PDict d2) c.
Proof.
  intros H1 H2 Hn He c.
  apply truthy_dict in H1. apply truthy_dict in H2.
  unfold create_user, update_user. rewrite H1, H2.
  unfold py_get, bind, ret. cbv beta iota.
  destruct (truthy (dict_get d1 "name")) eqn:T1n,
           (truthy (dict_get d2 "name")) eqn:T2n;
    try (rewrite Hn in T1n; simpl in T1n; discriminate T1n);
    try (rewrite <- Hn in T2n; simpl in T2n; discriminate T2n);
  destruct (truthy (dict_get d1 "email")) eqn:T1e,
           (truthy (dict_get d2 "email")) eqn:T2e;
    try (rewrite He in T1e; simpl in T1e; discriminate T1e);
    try (rewrite <- He in T2e; simpl in T2e; discriminate T2e);
    cbn [negb orb andb]; try rewrite Hn; try rewrite He;
    split; reflexivity.
Qed.

Lemma with_field_same_key (k : string) (f : falsy_form)
    (rest : list (string * pyval)) :
  dict_get rest k = PNone ->
  truthy (dict_get (with_field k f rest) k) = false.
Proof.
  intros H. destruct f; simpl; rewrite ?String.eqb_refl, ?H; reflexivity.
Qed.

Lemma with_field_other_key (k k' : string) (f : falsy_form)
    (rest : list (string * pyval)) :
  (k =? k')%string = false ->
  dict_get (with_field k f rest) k' = dict_get rest k'.
Proof.
  intros H. destruct f; simpl; rewrite ?H; reflexivity.
Qed.

(** C7 (amended): for POST /users and PUT /users/{id} alike, as long as
    the body is not left empty, a field given as the empty string, as null
    or not at all gets the same answer and leaves the same table, whichever
    of the three forms it takes.  A body left empty by the absence of its
    only field is answered 400 with body {"error": "JSON body required"},
    by POST and by PUT on any id, and the table is left as it was. *)
Theorem falsy_field_forms_agree
    (now : string) (user_id : Z) (k : string)
    (rest : list (string * pyval)) (t : table) :
  k = "name" \/ k = "email" ->
  dict_get rest k = PNone ->
  (forall f1 f2,
     with_field k f1 rest <> [] ->
     with_field k f2 rest <> [] ->
     serve (create_user now (PDict (with_field k f1 rest))) t
     = serve (create_user now (PDict (with_field k f2 rest))) t /\
     serve (update_user user_id (PDict (with_field k f1 rest))) t
     = serve (update_user user_id (PDict (with_field k f2 rest))) t) /\
  (forall f,
     with_field k f rest = [] ->
     serve (create_user now (PDict (with_field k f rest))) t
     = (mkResponse 400 (PDict [("error", PStr "JSON body required")]), t) /\
     serve (update_user user_id (PDict (with_field k f rest))) t
     = (mkResponse 400 (PDict [("error", PStr "JSON body required")]), t)).
Proof.
  intros Hk Habsent. split.
  - intros f1 f2 H1 H2.
    assert (forall c,
               create_user now (PDict (with_field k f1 rest)) c
               = create_user now (PDict (with_field k f2 rest)) c /\
               update_user user_id (PDict (with_field k f1 rest)) c
               = update_user user_id (PDict (with_field k f2 rest)) c) as Hc.
    { apply views_read_fields; auto; destruct Hk as [-> | ->].
      - now rewrite !with_field_same_key.
      - now rewrite !(with_field_other_key "email" "name").
      - now rewrite !(with_field_other_key "name" "email").
      - now rewrite !with_field_same_key. }
    unfold serve. destruct (Hc (get_db t)) as [-> ->]. split; reflexivity.
  - intros f ->. split; reflexivity.
Qed.

Lemma falsy_field_forms_agree_witness :
  (serve (create_user "2024-03-01T09:30:00"
            (PDict [("name", PStr ""); ("email", PStr "cy@x.com")])) two_users
   = serve (create_user "2024-03-01T09:30:00"
              (PDict [("email", PStr "cy@x.com")])) two_users /\
   serve (update_user 1
            (PDict [("name", PStr ""); ("email", PStr "cy@x.com")])) two_users
   = serve (update_user 1 (PDict [("email", PStr "cy@x.com")])) two_users) /\
  serve (update_user 1 (PDict [])) two_users
  = (mkResponse 400 (PDict [("error", PStr "JSON body required")]),
     two_users).
Proof.
  split.
  - apply (proj1 (falsy_field_forms_agree "2024-03-01T09:30:00" 1 "name"
                    [("email", PStr "cy@x.com")] two_users
                    (or_introl eq_refl) eq_refl) EmptyStr Absent);
      discriminate.
  - apply (proj2 (falsy_field_forms_agree "2024-03-01T09:30:00" 1 "name"
                    [] two_users (or_introl eq_refl) eq_refl) Absent).
    reflexivity.
Defined.

(** ** Routing *)

Lemma route_users_segment (m : http_method) (s : string) :
  route m ["users"; s] =
  match int_converter s with
  | Some user_id =>
      match m with
      | GET => Endpoint (GetUser user_id)
      | PUT => Endpoint (UpdateUser user_id)
      | DELETE => Endpoint (DeleteUser user_id)
      | POST => MethodNotAllowed
      end
  | None => NotFound
  end.
Proof. reflexivity. Qed.








(** ** Examples *)

(** The scenario of the specification, request by request. *)
Example spec_scenario :
  run [mkRequest POST ["users"]
         (PDict [("name", PStr "Ann"); ("email", PStr "ann@x.com")]);
       mkRequest GET ["users"; "1"] PNone;
       mkRequest POST ["users"]
         (PDict [("name", PStr "Bob"); ("email", PStr "ann@x.com")]);
       mkRequest PUT ["users"; "1"] (PDict [("email", PStr "ann2@x.com")]);
       mkRequest GET ["users"; "1"] PNone;
       mkRequest DELETE ["users"; "1"] PNone;
       mkRequest GET ["users"; "1"] PNone]
      empty_table
  = ([Reply (mkResponse 201 (PDict [("message", PStr "User created")]));
      Reply (jsonify (user_to_dict
                        (mkUser 1 "Ann" "ann@x.com" scenario_time)));
      Reply (error_response "Email already exists" 409);
      Reply updated;
      Reply (jsonify (user_to_dict
                        (mkUser 1 "Ann" "ann2@x.com" scenario_time)));
      Reply (jsonify (PDict [("message", PStr "User deleted")]));
      Reply (error_response "User not found" 404)],
     mkTable [] 1).
Proof. reflexivity. Qed.

(** The entry of a user, field by field. *)
Example get_user_entry :
  serve (get_user 2) two_users
  = (mkResponse 200
       (PDict [("id", PInt 2); ("name", PStr "Bob");
               ("email", PStr "bob@x.com");
               ("created_at", PStr "2024-01-02T00:00:00")]),
     two_users).
Proof. reflexivity. Qed.

(** A body that is truthy and not a JSON object has no [get]: the request
    ends in the 500 handler. *)
Example create_user_array_body (now : string) (t : table) :
  serve (create_user now (PList [PInt 1])) t = (server_error, t).
Proof. reflexivity. Qed.

(** A name that is a JSON array cannot be bound to the statement. *)
Example create_user_array_name :
  serve (create_user scenario_time
           (PDict [("name", PList [PStr "Ann"]); ("email", PStr "c@x.com")]))
        two_users
  = (server_error, two_users).
Proof. reflexivity. Qed.

(** An id beyond 64 bits passes the converter and overflows in the SELECT. *)
Example update_user_huge_id :
  dispatch scenario_time
    (mkRequest PUT ["users"; "9223372036854775808"]
       (PDict [("name", PStr "Ann")]))
    two_users
  = (Reply server_error, two_users).
Proof. reflexivity. Qed.

(** A rowid is not used again after its row is deleted. *)
Example rowid_not_reused :
  snd (serve (create_user scenario_time
                (PDict [("name", PStr "Cy"); ("email", PStr "cy@x.com")]))
             (without 2 two_users))
  = mkTable [ann; mkUser 3 "Cy" "cy@x.com" scenario_time] 3.
Proof. reflexivity. Qed.

(** * More of the service *)

(** ** One request, as a step on the table *)

Lemma string_of_uint_nonempty (d : Decimal.uint) :
  NilZero.string_of_uint d <> "".
Proof. destruct d; discriminate. Qed.

Lemma int_text_nonempty (z : Z) : int_text z <> "".
Proof.
  unfold int_text. destruct (Z.to_int z) as [d|d]; simpl.
  - apply string_of_uint_nonempty.
  - discriminate.
Qed.

(** A truthy value that can be stored is stored as a non-empty text. *)
Lemma truthy_text_nonempty (v : pyval) (s : string) :
  truthy v = true -> sql_text v = Some s -> s <> "".
Proof.
  unfold sql_text. destruct v as [|b|z|s'|l|d]; simpl; try discriminate.
  - intros _ [= <-]. apply int_text_nonempty.
  - destruct ((MIN_INT64 <=? z) && (z <=? MAX_ROWID)); [|discriminate].
    intros _ [= <-]. apply int_text_nonempty.
  - intros H [= <-]. apply negb_true_iff, String.eqb_neq in H. exact H.
Qed.

Lemma merged_text (v : pyval) (old s : string) :
  sql_text (if truthy v then v else PStr old) = Some s ->
  s = old \/ s <> "".
Proof.
  destruct (truthy v) eqn:T.
  - intros H. right. now apply (truthy_text_nonempty v).
  - intros [= <-]. now left.
Qed.

Lemma filter_all {A} (p : A -> bool) (l : list A) :
  filter p l = [] -> filter (fun x => negb (p x)) l = l.
Proof.
  induction l as [|x l IH]; simpl; [reflexivity|].
  destruct (p x); simpl; [discriminate|]. intros H. f_equal. now apply IH.
Qed.

Lemma serve_delete_user (i : Z) (t : table) :
  snd (serve (delete_user i) t) = t \/
  snd (serve (delete_user i) t) = without i t.
Proof.
  unfold_view. destruct (bind_param_int_cases i) as [-> | ->].
  - right. cbn [working committed].
    destruct (Z.of_nat _ =? 0); reflexivity.
  - left. reflexivity.
Qed.

Lemma serve_step (now : string) (data : pyval) (e : endpoint) (t : table) :
  step t (snd (serve (view_of now data e) t)).
Proof.
  destruct e as [| | |i|i|i]; cbn [view_of].
  - apply step_none.
  - apply step_none.
  - destruct (create_user_outcome now data t)
      as [[-> _] | [d [n [em [_ [Hn [He [Hnt [Het [Hfree [Hleft ->]]]]]]]]]]].
    + apply step_none.
    + cbn [snd]. apply step_insert; auto.
      * now apply (truthy_text_nonempty (dict_get d "name")).
      * now apply (truthy_text_nonempty (dict_get d "email")).
  - replace (snd (serve (get_user i) t)) with t; [apply step_none|].
    unfold_view. destruct (bind_param_int_cases i) as [-> | ->];
      [|reflexivity].
    cbn [working]. now destruct (lookup i _).
  - destruct (update_user_outcome i data t)
      as [[-> _] | [d [u [n [em [_ [Hu [Hnt [Het [Hfree ->]]]]]]]]]].
    + apply step_none.
    + cbn [snd]. apply (step_update t i u); auto.
      * now apply (merged_text (dict_get d "name")).
      * now apply (merged_text (dict_get d "email")).
  - destruct (serve_delete_user i t) as [-> | ->];
      [apply step_none | apply step_delete].
Qed.

Lemma dispatch_step (now : string) (rq : request) (t : table) :
  step t (snd (dispatch now rq t)).
Proof.
  unfold dispatch. destruct (route _ _) as [e| |]; try apply step_none.
  pose proof (serve_step now (req_json rq) e t) as H.
  destruct (serve _ t) as [r t']. exact H.
Qed.

(** An invariant of the steps is an invariant of every sequence of
    requests. *)
Lemma serve_all_invariant (P : table -> Prop) :
  (forall t t', P t -> step t t' -> P t') ->
  forall rqs t, P t -> P (serve_all rqs t).
Proof.
  intros Hstep rqs. unfold serve_all.
  induction rqs as [|[now rq] rqs IH]; simpl; intros t Ht; [exact Ht|].
  apply IH. apply (Hstep t); [exact Ht | apply dispatch_step].
Qed.

(** ** What every step keeps *)

Lemma step_db_ok (t t' : table) : db_ok t -> step t t' -> db_ok t'.
Proof.
  intros Hok [|n e ts _ _ Hfree Hleft|i u n e _ _ _ Hfree|i].
  - exact Hok.
  - now apply db_ok_insert.
  - now apply db_ok_update.
  - now apply db_ok_delete.
Qed.

Lemma step_seq_mono (t t' : table) : step t t' -> seq t <= seq t'.
Proof.
  intros [|n e ts _ _ _ _|i u n e _ _ _ _|i]; simpl; try lia.
  unfold last_rowid. lia.
Qed.

Lemma last_rowid_positive (t : table) :
  ids_below_seq t -> 0 <= last_rowid t.
Proof.
  unfold ids_below_seq, last_rowid. intros H.
  destruct (rows t) as [|r l]; simpl; [lia|].
  inversion H as [|? ? Hr _]; subst. lia.
Qed.

Lemma step_ids_below_seq (t t' : table) :
  ids_below_seq t -> step t t' -> ids_below_seq t'.
Proof.
  intros Hids Hs. pose proof (last_rowid_positive t Hids) as Hpos.
  unfold ids_below_seq in *.
  destruct Hs as [|n e ts _ _ _ _|i u n e _ _ _ _|i]; simpl.
  - exact Hids.
  - apply Forall_app. split.
    + apply Forall_forall. intros r Hr. rewrite Forall_forall in Hids.
      specialize (Hids r Hr). unfold last_rowid. lia.
    + constructor; [simpl; lia | constructor].
  - apply Forall_forall. intros r Hr. apply in_map_iff in Hr.
    destruct Hr as [r0 [<- Hr0]]. rewrite set_fields_id.
    rewrite Forall_forall in Hids. now apply Hids.
  - apply Forall_forall. intros r Hr. apply filter_In in Hr.
    rewrite Forall_forall in Hids. now apply Hids.
Qed.

Lemma lookup_In (i : Z) (t : table) (u : user) :
  lookup i t = Some u -> In u (rows t).
Proof. intros H. now apply (find_some_has_id _ _ _ H). Qed.

Lemma step_fields_nonempty (t t' : table) :
  fields_nonempty t -> step t t' -> fields_nonempty t'.
Proof.
  unfold fields_nonempty. intros Hne Hs.
  destruct Hs as [|n e ts Hn He _ _|i u n e Hu Hn He _|i]; simpl.
  - exact Hne.
  - apply Forall_app. split; [exact Hne|].
    constructor; [simpl; auto | constructor].
  - rewrite Forall_forall in Hne.
    destruct (Hne u (lookup_In _ _ _ Hu)) as [Hun Hue].
    apply Forall_forall. intros r Hr. apply in_map_iff in Hr.
    destruct Hr as [r0 [<- Hr0]]. unfold set_fields.
    destruct (u_id r0 =? i); [|now apply Hne]. simpl. split.
    + destruct Hn as [-> | Hn]; assumption.
    + destruct He as [-> | He]; assumption.
  - apply Forall_forall. intros r Hr. apply filter_In in Hr.
    rewrite Forall_forall in Hne. now apply Hne.
Qed.

Lemma has_id_app (i : Z) (l : list user) (r : user) (s s' : Z) :
  has_id i (mkTable (l ++ [r]) s') =
  has_id i (mkTable l s) || (u_id r =? i).
Proof.
  unfold has_id. simpl. rewrite existsb_app. simpl. now rewrite orb_false_r.
Qed.

Lemma has_id_set_fields (i j : Z) (n e : string) (t : table) :
  has_id j (mkTable (map (set_fields i n e) (rows t)) (seq t)) = has_id j t.
Proof.
  unfold has_id. simpl. induction (rows t) as [|r l IH]; simpl; [reflexivity|].
  now rewrite set_fields_id, IH.
Qed.

Lemma has_id_without (i j : Z) (t : table) :
  has_id j (without i t) = has_id j t && negb (j =? i).
Proof.
  unfold has_id, without. simpl.
  induction (rows t) as [|r l IH]; simpl; [reflexivity|].
  destruct (u_id r =? i) eqn:E; simpl; rewrite IH.
  - apply Z.eqb_eq in E. destruct (u_id r =? j) eqn:F; simpl; [|reflexivity].
    apply Z.eqb_eq in F. assert (j = i) as -> by lia.
    now rewrite Z.eqb_refl, !andb_false_r.
  - destruct (u_id r =? j) eqn:F; simpl; [|reflexivity].
    apply Z.eqb_eq in F. apply Z.eqb_neq in E.
    assert (j <> i) as Hji by lia. apply Z.eqb_neq in Hji. now rewrite Hji.
Qed.

(** An id that is not stored and not above the sequence stays so. *)
Lemma step_absent_id (i : Z) (t t' : table) :
  i <= seq t /\ has_id i t = false ->
  step t t' ->
  i <= seq t' /\ has_id i t' = false.
Proof.
  intros [Hseq Hno] Hs. split.
  - pose proof (step_seq_mono _ _ Hs). lia.
  - destruct Hs as [|n e ts _ _ _ _|j u n e _ _ _ _|j].
    + exact Hno.
    + rewrite (has_id_app i (rows t) _ (seq t)).
      replace (mkTable (rows t) (seq t)) with t by now destruct t.
      rewrite Hno. simpl. apply Z.eqb_neq. unfold last_rowid. lia.
    + now rewrite has_id_set_fields.
    + now rewrite has_id_without, Hno.
Qed.

Lemma serve_delete_in_range (i : Z) (t : table) :
  MIN_INT64 <= i <= MAX_ROWID ->
  snd (serve (delete_user i) t) = without i t.
Proof.
  intros Hrange. unfold_view. rewrite (bind_param_int _ Hrange).
  cbn [working committed]. now destruct (Z.of_nat _ =? 0).
Qed.

(** ** Invariants of request sequences *)

(** X6: whatever requests are served, in whatever order, a table that
    satisfies the schema (ids distinct and 64-bit, emails distinct) and
    whose ids are positive and not above the AUTOINCREMENT sequence is
    left in a table that does too. *)
Theorem requests_keep_schema (rqs : list (string * request)) (t : table) :
  db_ok t ->
  ids_below_seq t ->
  db_ok (serve_all rqs t) /\ ids_below_seq (serve_all rqs t).
Proof.
  intros Hok Hids.
  apply (serve_all_invariant (fun t => db_ok t /\ ids_below_seq t));
    [|split; assumption].
  intros t0 t1 [H1 H2] Hs. split.
  - now apply (step_db_ok t0).
  - now apply (step_ids_below_seq t0).
Qed.

Lemma requests_keep_schema_witness :
  db_ok (serve_all sample_requests (init_db None)) /\
  ids_below_seq (serve_all sample_requests (init_db None)).
Proof.
  apply (requests_keep_schema sample_requests (init_db None)).
  - apply db_okb_sound. reflexivity.
  - constructor.
Defined.

(** X9: a name or an email that is stored is never the empty text: a
    table in which none is empty is left, by any sequence of requests, in
    a table in which none is. *)
Theorem names_and_emails_stay_nonempty
    (rqs : list (string * request)) (t : table) :
  fields_nonempty t -> fields_nonempty (serve_all rqs t).
Proof.
  apply (serve_all_invariant fields_nonempty).
  intros t0 t1 H Hs. now apply (step_fields_nonempty t0).
Qed.

Lemma names_and_emails_stay_nonempty_witness :
  fields_nonempty (serve_all sample_requests (init_db None)).
Proof.
  apply (names_and_emails_stay_nonempty sample_requests (init_db None)).
  constructor.
Defined.

(** X5: a rowid is not handed out twice.  Once DELETE has removed the row
    with an id from a table that satisfies the schema and whose ids are
    not above the sequence, no sequence of requests brings a row with that
    id back. *)
Theorem deleted_id_never_returns
    (i : Z) (rqs : list (string * request)) (t : table) :
  db_ok t ->
  ids_below_seq t ->
  has_id i t = true ->
  has_id i (serve_all rqs (snd (serve (delete_user i) t))) = false.
Proof.
  intros Hok Hids Hhas.
  rewrite (serve_delete_in_range i t (db_ok_id_range t i Hok Hhas)).
  apply (serve_all_invariant
           (fun t' => i <= seq t' /\ has_id i t' = false)).
  - intros t0 t1 H Hs. now apply (step_absent_id i t0).
  - split.
    + unfold without. simpl. apply has_id_true_find in Hhas.
      destruct Hhas as [u [_ [Hin Hid]]].
      unfold ids_below_seq in Hids. rewrite Forall_forall in Hids.
      specialize (Hids u Hin). lia.
    + now rewrite has_id_without, Z.eqb_refl, andb_false_r.
Qed.

Lemma deleted_id_never_returns_witness :
  has_id 2 (serve_all sample_requests (snd (serve (delete_user 2) two_users)))
  = false.
Proof.
  apply (deleted_id_never_returns 2 sample_requests two_users).
  - apply db_okb_sound. reflexivity.
  - repeat constructor; simpl; lia.
  - reflexivity.
Defined.

(** ** Looking rows up across a step *)

Lemma lookup_app_old (i : Z) (l : list user) (r u : user) (s s' : Z) :
  lookup i (mkTable l s) = Some u ->
  lookup i (mkTable (l ++ [r]) s') = Some u.
Proof.
  unfold lookup. simpl. induction l as [|x l IH]; simpl; [discriminate|].
  destruct (u_id x =? i); [auto | exact IH].
Qed.

Lemma lookup_app_new (i : Z) (l : list user) (r : user) (s s' : Z) :
  lookup i (mkTable l s) = None ->
  lookup i (mkTable (l ++ [r]) s') = if u_id r =? i then Some r else None.
Proof.
  unfold lookup. simpl. induction l as [|x l IH]; simpl; [reflexivity|].
  destruct (u_id x =? i); [discriminate | exact IH].
Qed.

Lemma lookup_set_fields_any (i j : Z) (n e : string) (t : table) :
  lookup j (mkTable (map (set_fields i n e) (rows t)) (seq t))
  = option_map (set_fields i n e) (lookup j t).
Proof.
  unfold lookup. simpl. induction (rows t) as [|r l IH]; simpl; [reflexivity|].
  rewrite set_fields_id. destruct (u_id r =? j); [reflexivity | exact IH].
Qed.

Lemma lookup_without (i j : Z) (t : table) :
  lookup j (without i t) = if j =? i then None else lookup j t.
Proof.
  unfold lookup, without. simpl.
  induction (rows t) as [|r l IH]; simpl; [now destruct (j =? i)|].
  destruct (u_id r =? i) eqn:E; simpl.
  - rewrite IH. apply Z.eqb_eq in E.
    destruct (j =? i) eqn:F; [reflexivity|].
    apply Z.eqb_neq in F. assert (u_id r <> j) as H by lia.
    apply Z.eqb_neq in H. now rewrite H.
  - destruct (u_id r =? j) eqn:F.
    + apply Z.eqb_eq in F. apply Z.eqb_neq in E.
      assert (j <> i) as H by lia. apply Z.eqb_neq in H. now rewrite H.
    + exact IH.
Qed.

Lemma table_eta (t : table) : mkTable (rows t) (seq t) = t.
Proof. now destruct t. Qed.

Lemma lookup_none_has_id (i : Z) (t : table) :
  lookup i t = None -> has_id i t = false.
Proof.
  intros H. destruct (has_id i t) eqn:E; [|reflexivity].
  apply has_id_true_find in E. destruct E as [u [Hu _]]. congruence.
Qed.

(** Across a step, the row of an id that is not above the sequence keeps
    its time of creation, if the id still has a row. *)
Lemma step_created_at (i : Z) (ts : string) (t t' : table) :
  i <= seq t /\
  (forall r, lookup i t = Some r -> u_created_at r = ts) ->
  step t t' ->
  i <= seq t' /\
  (forall r, lookup i t' = Some r -> u_created_at r = ts).
Proof.
  intros [Hseq Hts] Hs. split.
  - pose proof (step_seq_mono _ _ Hs). lia.
  - destruct Hs as [|n e ts' _ _ _ _|j u n e _ _ _ _|j]; intros r Hr.
    + now apply Hts.
    + destruct (lookup i t) as [u|] eqn:Hu.
      * rewrite <- (table_eta t) in Hu.
        rewrite (lookup_app_old _ _ _ _ _ (last_rowid t + 1) Hu) in Hr.
        injection Hr as <-. now apply Hts.
      * rewrite <- (table_eta t) in Hu.
        rewrite (lookup_app_new _ _ _ _ (last_rowid t + 1) Hu) in Hr.
        simpl in Hr. destruct (last_rowid t + 1 =? i) eqn:E; [|discriminate].
        apply Z.eqb_eq in E. unfold last_rowid in E. lia.
    + rewrite lookup_set_fields_any in Hr.
      destruct (lookup i t) as [u0|]; [|discriminate].
      injection Hr as <-. rewrite set_fields_created_at. now apply Hts.
    + rewrite lookup_without in Hr.
      destruct (i =? j); [discriminate | now apply Hts].
Qed.

(** X10: [created_at] is written once.  For an id that AUTOINCREMENT has
    handed out (it has a row and is not above the sequence), whatever
    requests are served afterwards, the row of that id, as long as there is
    one, has the [created_at] it had. *)
Theorem created_at_never_changes
    (i : Z) (rqs : list (string * request)) (t : table) (r r' : user) :
  i <= seq t ->
  lookup i t = Some r ->
  lookup i (serve_all rqs t) = Some r' ->
  u_created_at r' = u_created_at r.
Proof.
  intros Hseq Hr Hr'.
  assert (i <= seq (serve_all rqs t) /\
          (forall x, lookup i (serve_all rqs t) = Some x ->
                     u_created_at x = u_created_at r)) as [_ H].
  { apply (serve_all_invariant
             (fun t' => i <= seq t' /\
                        (forall x, lookup i t' = Some x ->
                                   u_created_at x = u_created_at r))).
    - intros t0 t1 H0 Hs. now apply (step_created_at i _ t0).
    - split; [exact Hseq|]. intros x Hx. congruence. }
  now apply H.
Qed.

Lemma created_at_never_changes_witness :
  lookup 2 (serve_all
              [("2024-03-01T09:30:00",
                mkRequest PUT ["users"; "2"]
                  (PDict [("name", PStr "Bo"); ("email", PStr "bo@x.com")]));
               ("2024-03-01T09:31:00", mkRequest DELETE ["users"; "1"] PNone)]
              two_users)
  = Some (mkUser 2 "Bo" "bo@x.com" "2024-01-02T00:00:00") /\
  u_created_at (mkUser 2 "Bo" "bo@x.com" "2024-01-02T00:00:00")
  = u_created_at bob.
Proof.
  split; [reflexivity|].
  apply (created_at_never_changes 2
           [("2024-03-01T09:30:00",
             mkRequest PUT ["users"; "2"]
               (PDict [("name", PStr "Bo"); ("email", PStr "bo@x.com")]));
            ("2024-03-01T09:31:00", mkRequest DELETE ["users"; "1"] PNone)]
           two_users);
    [vm_compute; discriminate | reflexivity | reflexivity].
Defined.

(** ** Reading *)

Lemma route_get (path : list string) (e : endpoint) :
  route GET path = Endpoint e ->
  e = Home \/ e = GetUsers \/ exists i, e = GetUser i.
Proof.
  unfold route. destruct path as [|s [|i [|x path]]]; try discriminate.
  - destruct (s =? "")%string; [intros [= <-]; auto|].
    destruct (s =? "users")%string; [intros [= <-]; auto | discriminate].
  - destruct (s =? "users")%string; [|discriminate].
    destruct (int_converter i); [intros [= <-]; eauto | discriminate].
Qed.

Lemma serve_get_user (i : Z) (t : table) :
  snd (serve (get_user i) t) = t.
Proof.
  unfold_view. destruct (bind_param_int_cases i) as [-> | ->]; [|reflexivity].
  cbn [working]. now destruct (lookup i _).
Qed.

(** X2: a GET writes nothing.  Whatever its path and whatever body it
    carries, the table after a GET request is the table before. *)
Theorem get_never_writes
    (now : string) (path : list string) (data : pyval) (t : table) :
  snd (dispatch now (mkRequest GET path data) t) = t.
Proof.
  unfold dispatch. cbn [req_method req_path req_json].
  destruct (route GET path) as [e| |] eqn:Hr; try reflexivity.
  destruct (route_get _ _ Hr) as [-> | [-> | [i ->]]]; cbn [view_of].
  - reflexivity.
  - reflexivity.
  - pose proof (serve_get_user i t) as H.
    destruct (serve (get_user i) t). exact H.
Qed.

Lemma NoDup_first_match (t : table) (r : user) :
  NoDup (map u_id (rows t)) -> In r (rows t) -> lookup (u_id r) t = Some r.
Proof.
  unfold lookup. induction (rows t) as [|x l IH]; simpl; [tauto|].
  intros Hnd Hin. inversion Hnd as [|? ? Hx Hl]; subst.
  destruct Hin as [-> | Hin]; [now rewrite Z.eqb_refl|].
  destruct (u_id x =? u_id r) eqn:E; [|now apply IH].
  apply Z.eqb_eq in E. exfalso. apply Hx. rewrite E. now apply in_map.
Qed.

(** X3: the list and the single reads agree.  On a table that satisfies
    the schema, GET /users lists the rows in table order, one entry each;
    GET /users/{id} on the id of a listed row answers 200 with that row's
    entry; and a GET /users/{id} answered 200 returns the entry of a
    listed row with that id. *)
Theorem listing_agrees_with_lookup (t : table) :
  db_ok t ->
  serve get_users t = (jsonify (PList (map user_to_dict (rows t))), t) /\
  (forall r, In r (rows t) ->
     serve (get_user (u_id r)) t = (jsonify (user_to_dict r), t)) /\
  (forall i, status (fst (serve (get_user i) t)) = 200 ->
     exists r, In r (rows t) /\ u_id r = i /\
               fst (serve (get_user i) t) = jsonify (user_to_dict r)).
Proof.
  intros Hok. split; [reflexivity|]. split.
  - intros r Hin.
    assert (MIN_INT64 <= u_id r <= MAX_ROWID) as Hrange.
    { destruct Hok as [_ [_ Hr]]. rewrite Forall_forall in Hr.
      now apply Hr. }
    unfold_view. rewrite (bind_param_int _ Hrange). cbn [working].
    now rewrite (NoDup_first_match t r (proj1 Hok) Hin).
  - intros i. unfold_view.
    destruct (bind_param_int_cases i) as [-> | ->]; [|discriminate].
    cbn [working]. destruct (lookup i t) as [u|] eqn:Hu; [|discriminate].
    intros _. exists u. destruct (find_some_has_id _ _ _ Hu) as [_ [Hin Hid]].
    auto.
Qed.

Lemma listing_agrees_with_lookup_witness :
  serve (get_user 2) two_users = (jsonify (user_to_dict bob), two_users).
Proof.
  apply (proj1 (proj2 (listing_agrees_with_lookup two_users
                         (db_okb_sound two_users eq_refl))) bob).
  simpl. auto.
Defined.

(** ** Writing *)

(** X4: DELETE touches the rows with the id and nothing else.  After
    DELETE /users/{id}, whatever the answer, the sequence is as it was,
    every other id reads as it did, and no row is there that was not. *)
Theorem delete_user_frame (i : Z) (t : table) :
  seq (snd (serve (delete_user i) t)) = seq t /\
  (forall j, j <> i ->
     lookup j (snd (serve (delete_user i) t)) = lookup j t) /\
  (forall r, In r (rows (snd (serve (delete_user i) t))) -> In r (rows t)).
Proof.
  destruct (serve_delete_user i t) as [-> | ->].
  - auto.
  - split; [reflexivity|]. split.
    + intros j Hj. rewrite lookup_without.
      apply Z.eqb_neq in Hj. now rewrite Hj.
    + intros r Hr. unfold without in Hr. simpl in Hr.
      now apply filter_In in Hr.
Qed.

Lemma delete_user_frame_witness :
  lookup 2 (snd (serve (delete_user 1) two_users)) = lookup 2 two_users.
Proof.
  apply (delete_user_frame 1 two_users). discriminate.
Defined.

Lemma length_zero_nil {A} (l : list A) :
  (Z.of_nat (length l) =? 0) = true -> l = [].
Proof. destruct l; [reflexivity | discriminate]. Qed.

(** X12: a request that is refused writes nothing.  Whenever the answer
    has a status of 400 or more (400, 404, 405, 409, 500), the table after
    the request is the table before. *)
Theorem errors_leave_table_unchanged
    (now : string) (rq : request) (t : table) :
  400 <= reply_status (fst (dispatch now rq t)) ->
  snd (dispatch now rq t) = t.
Proof.
  unfold dispatch. destruct (route _ _) as [e| |]; try reflexivity.
  destruct (serve (view_of now (req_json rq) e) t) as [r t'] eqn:Hrun.
  cbn [fst snd reply_status]. intros Hst.
  assert (r = fst (serve (view_of now (req_json rq) e) t)) as Hr
    by now rewrite Hrun.
  assert (t' = snd (serve (view_of now (req_json rq) e) t)) as Ht
    by now rewrite Hrun.
  clear Hrun. subst t'. destruct e as [| | |i|i|i]; cbn [view_of] in *.
  - reflexivity.
  - reflexivity.
  - destruct (create_user_outcome now (req_json rq) t)
      as [[Hsame _] | [d [n [e [_ [_ [_ [_ [_ [_ [_ Hrun]]]]]]]]]]];
      [exact Hsame|].
    rewrite Hrun in Hr. subst r. simpl in Hst. lia.
  - apply serve_get_user.
  - destruct (update_user_outcome i (req_json rq) t)
      as [[Hsame _] | [d [u [n [e [_ [_ [_ [_ [_ Hrun]]]]]]]]]];
      [exact Hsame|].
    rewrite Hrun in Hr. subst r. simpl in Hst. lia.
  - subst r. revert Hst. unfold_view.
    destruct (bind_param_int_cases i) as [-> | ->]; [|reflexivity].
    cbn [working committed].
    destruct (Z.of_nat _ =? 0) eqn:Hcount; simpl; [|lia].
    intros _. apply length_zero_nil in Hcount.
    rewrite (filter_all _ _ Hcount). apply table_eta.
Qed.

Lemma errors_leave_table_unchanged_witness :
  snd (dispatch "2024-03-01T09:30:00"
         (mkRequest DELETE ["users"; "7"] PNone) two_users) = two_users.
Proof.
  apply (errors_leave_table_unchanged "2024-03-01T09:30:00"
           (mkRequest DELETE ["users"; "7"] PNone) two_users).
  vm_compute. discriminate.
Defined.

Lemma create_user_accepted
    (now : string) (d : list (string * pyval)) (n e : string) (t : table) :
  rowid_left t ->
  truthy (dict_get d "name") = true ->
  truthy (dict_get d "email") = true ->
  sql_text (dict_get d "name") = Some n ->
  sql_text (dict_get d "email") = Some e ->
  email_taken e (rows t) = false ->
  serve (create_user now (PDict d)) t
  = (created, mkTable (rows t ++ [mkUser (last_rowid t + 1) n e now])
                      (last_rowid t + 1)).
Proof.
  intros Hleft Hn He Hnt Het Hfree.
  assert (truthy (PDict d) = true) as Hd
    by (destruct d; [discriminate Hn | reflexivity]).
  destruct (sql_text_inv _ _ Hnt) as [pn [Hbn Han]].
  destruct (sql_text_inv _ _ Het) as [pe [Hbe Hae]].
  unfold_view. rewrite Hd, Hn, He. cbn [negb orb].
  rewrite Hbn, Hbe. cbn [bind_param working].
  rewrite (rowid_left_leb _ Hleft), Han, Hae. cbn [text_affinity].
  now rewrite Hfree.
Qed.

(** X1: what POST stores, GET returns.  After a POST that creates a user
    in a table that satisfies the schema, GET on the new id answers 200
    with that id, the name and the email of the body and the time of the
    POST, and GET /users lists the rows there were, then the new one. *)
Theorem create_then_get
    (now : string) (d : list (string * pyval)) (n e : string) (t : table) :
  db_ok t ->
  rowid_left t ->
  truthy (dict_get d "name") = true ->
  truthy (dict_get d "email") = true ->
  sql_text (dict_get d "name") = Some n ->
  sql_text (dict_get d "email") = Some e ->
  email_taken e (rows t) = false ->
  fst (serve (create_user now (PDict d)) t) = created /\
  fst (serve (get_user (last_rowid t + 1))
             (snd (serve (create_user now (PDict d)) t)))
  = jsonify (user_to_dict (mkUser (last_rowid t + 1) n e now)) /\
  fst (serve get_users (snd (serve (create_user now (PDict d)) t)))
  = jsonify (PList (map user_to_dict (rows t)
                    ++ [user_to_dict (mkUser (last_rowid t + 1) n e now)])).
Proof.
  intros Hok Hleft Hn He Hnt Het Hfree.
  rewrite (create_user_accepted now d n e t Hleft Hn He Hnt Het Hfree).
  cbn [fst snd]. split; [reflexivity|]. split.
  - assert (MIN_INT64 <= last_rowid t + 1 <= MAX_ROWID) as Hrange.
    { pose proof (last_rowid_nonneg t (proj2 (proj2 Hok))).
      unfold rowid_left in Hleft. lia. }
    unfold_view. rewrite (bind_param_int _ Hrange). cbn [working].
    assert (lookup (last_rowid t + 1) (mkTable (rows t) (seq t)) = None)
      as Hnone.
    { destruct (lookup _ _) as [u|] eqn:Hu; [|reflexivity].
      rewrite table_eta in Hu.
      destruct (find_some_has_id _ _ _ Hu) as [_ [Hin Hid]].
      pose proof (last_rowid_upper t u Hin). lia. }
    rewrite (lookup_app_new _ _ _ _ (last_rowid t + 1) Hnone).
    simpl. now rewrite Z.eqb_refl.
  - unfold get_users, select_all. unfold_view. cbn [working rows fst].
    now rewrite map_app.
Qed.

Lemma create_then_get_witness :
  fst (serve (get_user 3)
         (snd (serve (create_user "2024-03-01T09:30:00"
                        (PDict [("name", PStr "Cy");
                                ("email", PStr "cy@x.com")]))
                     two_users)))
  = jsonify (user_to_dict
               (mkUser 3 "Cy" "cy@x.com" "2024-03-01T09:30:00")).
Proof.
  apply (create_then_get "2024-03-01T09:30:00"
           [("name", PStr "Cy"); ("email", PStr "cy@x.com")]
           "Cy" "cy@x.com" two_users);
    first [reflexivity | apply db_okb_sound; reflexivity].
Defined.

Lemma filter_others_set_fields (i : Z) (n e : string) (l : list user) :
  filter (fun r => negb (u_id r =? i)) (map (set_fields i n e) l)
  = filter (fun r => negb (u_id r =? i)) l.
Proof.
  induction l as [|r l IH]; simpl; [reflexivity|].
  rewrite set_fields_id, IH. destruct (u_id r =? i) eqn:E; simpl;
    [reflexivity|].
  apply Z.eqb_neq in E. now rewrite set_fields_other.
Qed.

Lemma set_fields_twice (i : Z) (n e : string) (l : list user) :
  map (set_fields i n e) (map (set_fields i n e) l) = map (set_fields i n e) l.
Proof.
  rewrite map_map. apply map_ext. intros r. unfold set_fields at 2.
  destruct (u_id r =? i) eqn:E.
  - unfold set_fields. simpl. now rewrite E.
  - unfold set_fields. now rewrite E.
Qed.

Lemma update_user_nothing (i : Z) (d : list (string * pyval)) (t : table) :
  truthy (dict_get d "name") || truthy (dict_get d "email") = false ->
  status (fst (serve (update_user i (PDict d)) t)) = 400.
Proof.
  intros H. apply orb_false_iff in H. destruct H as [Hn He].
  unfold_view. destruct d as [|p d']; [reflexivity|].
  cbn [truthy negb]. now rewrite Hn, He.
Qed.

(** X13: PUT is idempotent.  On a table that satisfies the schema, a PUT
    that was answered 200 and is sent again is answered 200 again and
    leaves the table the first one left. *)
Theorem update_user_idempotent (i : Z) (data : pyval) (t : table) :
  db_ok t ->
  status (fst (serve (update_user i data) t)) = 200 ->
  serve (update_user i data) (snd (serve (update_user i data) t))
  = (updated, snd (serve (update_user i data) t)).
Proof.
  intros Hok Hst.
  destruct (update_user_outcome i data t)
    as [[_ Hno] | [d [u [n [e [-> [Hu [Hnt [Het [Hfree Hrun]]]]]]]]]];
    [contradiction|].
  destruct (truthy (dict_get d "name") || truthy (dict_get d "email"))
    eqn:Hsome;
    [|rewrite (update_user_nothing i d t Hsome) in Hst; discriminate Hst].
  rewrite Hrun. cbn [snd].
  rewrite (update_user_accepted i d _ (mkUser i n e (u_created_at u)) n e).
  - cbn [rows seq]. now rewrite set_fields_twice.
  - now apply (lookup_id_range t i u).
  - exact Hsome.
  - now apply lookup_set_fields.
  - cbn [u_name]. destruct (truthy (dict_get d "name")); [exact Hnt|].
    reflexivity.
  - cbn [u_email]. destruct (truthy (dict_get d "email")); [exact Het|].
    reflexivity.
  - cbn [rows]. now rewrite filter_others_set_fields.
Qed.

Lemma update_user_idempotent_witness :
  serve (update_user 1 (PDict [("email", PStr "ann2@x.com")]))
        (snd (serve (update_user 1 (PDict [("email", PStr "ann2@x.com")]))
                    two_users))
  = (updated,
     snd (serve (update_user 1 (PDict [("email", PStr "ann2@x.com")]))
                two_users)).
Proof.
  apply (update_user_idempotent 1 (PDict [("email", PStr "ann2@x.com")])
           two_users);
    [apply db_okb_sound; reflexivity | reflexivity].
Defined.

Lemma max_id_below (l : list user) (s m : Z) :
  Forall (fun r => 1 <= u_id r <= s) l -> max_id l = Some m -> 1 <= m <= s.
Proof.
  revert m. induction l as [|r l IH]; simpl; [discriminate|].
  intros m H. inversion H as [|? ? Hr Hl]; subst.
  destruct (max_id l) as [m'|]; intros [= <-]; [|lia].
  specialize (IH m' Hl eq_refl). lia.
Qed.

Lemma last_rowid_is_seq (t : table) :
  ids_below_seq t -> 0 <= seq t -> last_rowid t = seq t.
Proof.
  unfold ids_below_seq, last_rowid. intros Hids Hseq.
  destruct (max_id (rows t)) as [m|] eqn:Hm; [|lia].
  pose proof (max_id_below _ _ _ Hids Hm). lia.
Qed.

(** X15: deleting a user frees the email and not the id.  On a table that
    satisfies the schema, whose ids are not above a sequence that has not
    run out, once the row of an id is deleted, a POST that creates a user
    with the email that row had is answered 201, and the new row gets the
    id after the sequence, which is above the id deleted. *)
Theorem delete_frees_email
    (now : string) (i : Z) (u : user) (d : list (string * pyval))
    (n : string) (t : table) :
  db_ok t ->
  ids_below_seq t ->
  seq t < MAX_ROWID ->
  lookup i t = Some u ->
  truthy (dict_get d "name") = true ->
  truthy (dict_get d "email") = true ->
  sql_text (dict_get d "name") = Some n ->
  sql_text (dict_get d "email") = Some (u_email u) ->
  serve (create_user now (PDict d)) (snd (serve (delete_user i) t))
  = (created,
     mkTable (rows (without i t) ++ [mkUser (seq t + 1) n (u_email u) now])
             (seq t + 1)) /\
  i < seq t + 1.
Proof.
  intros Hok Hids Hmax Hu Hn He Hnt Het.
  pose proof (lookup_id_range _ _ _ Hok Hu) as Hrange.
  assert (1 <= i <= seq t) as Hi.
  { destruct (find_some_has_id _ _ _ Hu) as [_ [Hin Hid]].
    unfold ids_below_seq in Hids. rewrite Forall_forall in Hids.
    specialize (Hids u Hin). lia. }
  rewrite (serve_delete_in_range i t Hrange).
  assert (last_rowid (without i t) = seq t) as Hlast.
  { apply (last_rowid_is_seq (without i t)); [|simpl; lia].
    apply (step_ids_below_seq t); [exact Hids | apply step_delete]. }
  split; [|lia].
  rewrite (create_user_accepted now d n (u_email u) (without i t)); auto.
  - now rewrite Hlast.
  - unfold rowid_left. now rewrite Hlast.
  - unfold without. cbn [rows]. now apply own_email_free.
Qed.

Lemma delete_frees_email_witness :
  serve (create_user "2024-03-01T09:30:00"
           (PDict [("name", PStr "Al"); ("email", PStr "ann@x.com")]))
        (snd (serve (delete_user 1) two_users))
  = (created,
     mkTable [bob; mkUser 3 "Al" "ann@x.com" "2024-03-01T09:30:00"] 3) /\
  1 < 3.
Proof.
  apply (delete_frees_email "2024-03-01T09:30:00" 1 ann
           [("name", PStr "Al"); ("email", PStr "ann@x.com")] "Al" two_users);
    first [reflexivity | apply db_okb_sound; reflexivity
          | repeat constructor; simpl; lia].
Defined.

(** ** Statuses *)

(** The statuses of each view once [request.get_json()] has returned a
    value. *)
Lemma view_statuses (now : string) (data : pyval) (e : endpoint)
    (t : table) :
  status_among (status (fst (serve (view_of now data e) t))) (statuses_of e)
  = true.
Proof.
  destruct e as [| | |i|i|i]; cbn [view_of].
  - reflexivity.
  - reflexivity.
  - destruct (create_user_outcome now data t)
      as [[Hsame Hno] | [d [n [em [_ [_ [_ [_ [_ [_ [_ ->]]]]]]]]]]];
      [|reflexivity].
    clear Hsame Hno. unfold_view.
    destruct (truthy data); [|reflexivity].
    destruct data; try reflexivity. cbn [negb].
    destruct (negb (truthy (dict_get d "name"))
              || negb (truthy (dict_get d "email"))); [reflexivity|].
    destruct (bind_param (dict_get d "name")) as [a|ex];
      [|destruct ex; reflexivity].
    destruct (bind_param (dict_get d "email")) as [a0|ex];
      [|destruct ex; reflexivity].
    cbn [bind_param]. destruct (MAX_ROWID <=? _); [reflexivity|].
    destruct (text_affinity a); [|reflexivity].
    destruct (text_affinity a0); [|reflexivity].
    cbn [text_affinity]. destruct (email_taken _ _); reflexivity.
  - unfold_view. destruct (bind_param_int_cases i) as [-> | ->];
      [|reflexivity].
    cbn [working]. now destruct (lookup i _).
  - destruct (update_user_outcome i data t)
      as [[Hsame Hno] | [d [u [n [em [_ [_ [_ [_ [_ ->]]]]]]]]]];
      [|reflexivity].
    clear Hsame Hno. unfold_view.
    destruct (truthy data); [|reflexivity].
    destruct data; try reflexivity. cbn [negb].
    destruct (negb (truthy (dict_get d "name"))
              && negb (truthy (dict_get d "email"))); [reflexivity|].
    destruct (bind_param_int_cases i) as [-> | ->]; [|reflexivity].
    cbn [working committed].
    destruct (lookup i t) as [u|]; [|reflexivity].
    cbv beta. cbn [working committed].
    destruct (bind_param (if truthy (dict_get d "name") then _ else _))
      as [a|ex]; [|destruct ex; reflexivity].
    destruct (bind_param (if truthy (dict_get d "email") then _ else _))
      as [a0|ex]; [|destruct ex; reflexivity].
    destruct (existsb _ _); [|reflexivity].
    destruct (text_affinity a); [|reflexivity].
    destruct (text_affinity a0); [|reflexivity].
    destruct (email_taken _ _); reflexivity.
  - unfold_view. destruct (bind_param_int_cases i) as [-> | ->];
      [|reflexivity].
    cbn [working committed]. now destruct (Z.of_nat _ =? 0).
Qed.

(** A request whose body parses is answered as [dispatch] answers the
    parsed value. *)
Lemma respond_parsed (now : string) (m : http_method) (path : list string)
    (v : pyval) (t : table) :
  respond now m path (Json v) t
  = (match fst (dispatch now (mkRequest m path v) t) with
     | Reply r => Says r
     | MethodNotAllowedPage => FrameworkPage 405
     end,
     snd (dispatch now (mkRequest m path v) t)).
Proof.
  unfold respond, dispatch. cbn [req_method req_path req_json].
  destruct (route m path) as [e| |]; try reflexivity.
  unfold answer_of.
  destruct e; cbn [get_json view_of];
    destruct (serve _ t); reflexivity.
Qed.

(** X16: the statuses of each view, for every request body, those that
    [request.get_json()] refuses included.  GET / and GET /users answer
    200; POST /users answers 201, 400, 409, 415 or 500; GET /users/{id}
    answers 200, 404 or 500; PUT /users/{id} answers 200, 400, 404, 409,
    415 or 500; DELETE /users/{id} answers 200, 404 or 500. *)
Theorem answer_statuses (now : string) (b : entity) (e : endpoint)
    (t : table) :
  status_among (answer_status (fst (answer_of now b e t)))
               (statuses_with_body e) = true.
Proof.
  assert (forall data,
             status_among
               (status (fst (serve (view_of now data e) t)))
               (statuses_with_body e) = true) as Hview.
  { intros data. pose proof (view_statuses now data e t) as H.
    unfold status_among in *. apply existsb_exists in H.
    destruct H as [s [Hin Hs]]. apply existsb_exists. exists s.
    split; [|exact Hs].
    destruct e; simpl in *; tauto. }
  unfold answer_of.
  destruct e; cbn [get_json];
    try (specialize (Hview PNone); destruct (serve _ t); exact Hview);
    destruct b as [| |data]; cbn [get_json answer_status fst];
    try reflexivity;
    specialize (Hview data); destruct (serve _ t); exact Hview.
Qed.

(** ** The URL of an id *)

Ltac digit_codes :=
  repeat match goal with
         | |- context [Z.of_nat (nat_of_ascii ?c)] =>
             let v := eval vm_compute in (Z.of_nat (nat_of_ascii c)) in
             change (Z.of_nat (nat_of_ascii c)) with v
         end.

Lemma all_digits_uint (d : Decimal.uint) :
  all_digits (NilEmpty.string_of_uint d) = true.
Proof. induction d; simpl; auto. Qed.

Lemma digits_value_acc (d : Decimal.uint) (acc : positive) :
  digits_value (Z.pos acc) (NilEmpty.string_of_uint d)
  = Z.pos (Pos.of_uint_acc d acc).
Proof.
  revert acc. induction d; intros acc; [reflexivity|..].
  all: cbn [NilEmpty.string_of_uint digits_value Pos.of_uint_acc].
  all: rewrite <- IHd; f_equal; digit_codes; lia.
Qed.

Lemma digits_value_uint (d : Decimal.uint) :
  digits_value 0 (NilEmpty.string_of_uint d) = Z.of_N (Pos.of_uint d).
Proof.
  induction d; [reflexivity|..].
  all: cbn [NilEmpty.string_of_uint digits_value Pos.of_uint].
  all: digit_codes.
  1: exact IHd.
  all: cbn [Z.of_N]; rewrite <- digits_value_acc; reflexivity.
Qed.

(** The decimal text of a number that is not negative is read back by the
    converter. *)
Lemma int_converter_int_text (z : Z) :
  0 <= z -> int_converter (int_text z) = Some z.
Proof.
  intros Hz. unfold int_text. destruct z as [|p|p]; [reflexivity| |lia].
  cbn [Z.to_int NilZero.string_of_int].
  assert (Pos.to_uint p <> Decimal.Nil) as Hnil
    by apply DecimalPos.Unsigned.to_uint_nonnil.
  unfold NilZero.string_of_uint.
  destruct (Pos.to_uint p) as [|d|d|d|d|d|d|d|d|d|d] eqn:Hd;
    [congruence|..].
  all: rewrite <- Hd.
  all: unfold int_converter.
  all: destruct (NilEmpty.string_of_uint (Pos.to_uint p)) eqn:Hs;
    [rewrite Hd in Hs; discriminate Hs|].
  all: rewrite <- Hs, all_digits_uint, digits_value_uint.
  all: now rewrite DecimalPos.Unsigned.of_to.
Qed.

Lemma int_converter_negative (z : Z) :
  z < 0 -> int_converter (int_text z) = None.
Proof.
  intros Hz. destruct z as [|p|p]; try lia. reflexivity.
Qed.

(** X7: every id has a URL, and only ids that are not negative do.  The
    decimal text of a 64-bit id that is not negative, as the segment after
    /users/, is routed to the view of its method with that id; the text of
    a negative number is routed nowhere. *)
Theorem id_url_round_trip (z : Z) :
  (0 <= z <= MAX_ROWID ->
   route GET ["users"; int_text z] = Endpoint (GetUser z) /\
   route PUT ["users"; int_text z] = Endpoint (UpdateUser z) /\
   route DELETE ["users"; int_text z] = Endpoint (DeleteUser z)) /\
  (z < 0 ->
   forall m, route m ["users"; int_text z] = NotFound).
Proof.
  split.
  - intros [Hz _].
    rewrite !route_users_segment, (int_converter_int_text z Hz). auto.
  - intros Hz m. now rewrite route_users_segment, (int_converter_negative z Hz).
Qed.

Lemma id_url_round_trip_witness :
  route GET ["users"; int_text 1207] = Endpoint (GetUser 1207) /\
  route PUT ["users"; int_text 1207] = Endpoint (UpdateUser 1207) /\
  route DELETE ["users"; int_text 1207] = Endpoint (DeleteUser 1207).
Proof.
  apply (proj1 (id_url_round_trip 1207)). unfold MAX_ROWID. lia.
Defined.

(** ** More on writing and reading *)

(** X8: what PUT stores, GET returns.  On a table that satisfies the
    schema, after a PUT on an id that was answered 200, GET on that id
    answers 200 with the same id and [created_at], and with each of name
    and email as the body gave it, or as it was when the body gave
    none. *)
Theorem update_then_get
    (i : Z) (d : list (string * pyval)) (t : table) (u : user)
    (n e : string) :
  db_ok t ->
  lookup i t = Some u ->
  sql_text (if truthy (dict_get d "name") then dict_get d "name"
            else PStr (u_name u)) = Some n ->
  sql_text (if truthy (dict_get d "email") then dict_get d "email"
            else PStr (u_email u)) = Some e ->
  status (fst (serve (update_user i (PDict d)) t)) = 200 ->
  serve (get_user i) (snd (serve (update_user i (PDict d)) t))
  = (jsonify (user_to_dict (mkUser i n e (u_created_at u))),
     snd (serve (update_user i (PDict d)) t)).
Proof.
  intros Hok Hu Hnt Het Hst.
  destruct (update_user_outcome i (PDict d) t)
    as [[_ Hno] | [d' [u' [n' [e' [Hd [Hu' [Hnt' [Het' [_ Hrun]]]]]]]]]];
    [contradiction|].
  injection Hd as <-. rewrite Hu in Hu'. injection Hu' as <-.
  rewrite Hnt in Hnt'. injection Hnt' as <-.
  rewrite Het in Het'. injection Het' as <-.
  rewrite Hrun. cbn [snd].
  pose proof (lookup_id_range _ _ _ Hok Hu) as Hrange.
  unfold_view. rewrite (bind_param_int _ Hrange). cbn [working].
  now rewrite (lookup_set_fields t i n e u Hu).
Qed.

Lemma update_then_get_witness :
  serve (get_user 1)
        (snd (serve (update_user 1
                       (PDict [("name", PStr "Anna");
                               ("email", PStr "anna@x.com")]))
                    two_users))
  = (jsonify (user_to_dict
                (mkUser 1 "Anna" "anna@x.com" "2024-01-01T00:00:00")),
     snd (serve (update_user 1
                   (PDict [("name", PStr "Anna");
                           ("email", PStr "anna@x.com")]))
                two_users)).
Proof.
  apply (update_then_get 1
           [("name", PStr "Anna"); ("email", PStr "anna@x.com")]
           two_users ann "Anna" "anna@x.com");
    first [reflexivity | apply db_okb_sound; reflexivity].
Defined.

Lemma sorted_snoc (l : list Z) (x : Z) :
  StronglySorted Z.lt l -> Forall (fun y => y < x) l ->
  StronglySorted Z.lt (l ++ [x]).
Proof.
  induction l as [|a l IH]; simpl; intros Hs Hlt.
  - repeat constructor.
  - inversion Hs as [|? ? Hl Ha]; subst.
    inversion Hlt as [|? ? Hax Hlx]; subst.
    constructor; [now apply IH|].
    apply Forall_app. split; [exact Ha | now constructor].
Qed.

Lemma sorted_ids_filter (p : user -> bool) (l : list user) :
  StronglySorted Z.lt (map u_id l) ->
  StronglySorted Z.lt (map u_id (filter p l)).
Proof.
  induction l as [|r l IH]; simpl; intros Hs; [constructor|].
  inversion Hs as [|? ? Hl Hr]; subst.
  destruct (p r); simpl; [|now apply IH].
  constructor; [now apply IH|].
  rewrite Forall_forall in *. intros y Hy. apply Hr.
  apply in_map_iff in Hy. destruct Hy as [x [<- Hx]].
  apply filter_In in Hx. now apply in_map.
Qed.

Lemma step_rowid_order (t t' : table) :
  ids_below_seq t /\ in_rowid_order t ->
  step t t' ->
  ids_below_seq t' /\ in_rowid_order t'.
Proof.
  intros [Hids Hs] Hstep.
  split; [now apply (step_ids_below_seq t)|].
  unfold in_rowid_order in *.
  destruct Hstep as [|n e ts _ _ _ _|i u n e _ _ _ _|i]; simpl.
  - exact Hs.
  - rewrite map_app. simpl. apply sorted_snoc; [exact Hs|].
    apply Forall_forall. intros y Hy. apply in_map_iff in Hy.
    destruct Hy as [r [<- Hr]]. pose proof (last_rowid_upper t r Hr). lia.
  - rewrite map_map. erewrite map_ext; [exact Hs|]. apply set_fields_id.
  - now apply sorted_ids_filter.
Qed.

(** X11: the list is in the order of the ids.  Starting from a fresh
    database, whatever requests are served, the rows of the table, which
    GET /users lists in order, have strictly increasing ids: the order of
    creation is the order of the rowids. *)
Theorem listing_in_rowid_order (rqs : list (string * request)) :
  in_rowid_order (serve_all rqs (init_db None)).
Proof.
  apply (serve_all_invariant
           (fun t => ids_below_seq t /\ in_rowid_order t)).
  - intros t0 t1 H Hs. now apply (step_rowid_order t0).
  - split; constructor.
Qed.

(** X14: a fresh database.  [init_db] leaves a table that exists as it is
    and makes an empty one otherwise, which satisfies the schema; on it,
    the first POST that creates a user is answered 201 and stores the user
    under id 1. *)
Theorem fresh_database_first_user
    (now : string) (d : list (string * pyval)) (n e : string) :
  truthy (dict_get d "name") = true ->
  truthy (dict_get d "email") = true ->
  sql_text (dict_get d "name") = Some n ->
  sql_text (dict_get d "email") = Some e ->
  db_ok (init_db None) /\
  (forall t, init_db (Some t) = t) /\
  serve (create_user now (PDict d)) (init_db None)
  = (created, mkTable [mkUser 1 n e now] 1).
Proof.
  intros Hn He Hnt Het. split; [apply init_db_fresh|].
  split; [reflexivity|].
  now rewrite (create_user_accepted now d n e (init_db None)).
Qed.

Lemma fresh_database_first_user_witness :
  serve (create_user "2024-03-01T09:30:00"
           (PDict [("name", PStr "Ann"); ("email", PStr "ann@x.com")]))
        (init_db None)
  = (created, mkTable [mkUser 1 "Ann" "ann@x.com" "2024-03-01T09:30:00"] 1).
Proof.
  apply (fresh_database_first_user "2024-03-01T09:30:00"
           [("name", PStr "Ann"); ("email", PStr "ann@x.com")]
           "Ann" "ann@x.com");
    reflexivity.
Defined.
